(** * Skull King bot competition: bots and competition runner

    A shallow embedding of [example_bots.py] and [main.py].  The modules
    [cards], [player] and [game_engine] that these two files import are not
    part of the sources at hand; what is needed of them is either taken as a
    parameter or modelled from the written specification, and marked so. *)

From stdpp Require Import base numbers list option gmap strings sorting.

Local Open Scope Z_scope.

(** ** Python runtime: exceptions and results *)

Module Py.

(** The exceptions that the modelled code can meet. *)
Inductive exc : Set :=
| IndexError          (* indexing or choosing from an empty sequence *)
| ValueError          (* randint on an empty range, min/max of nothing *)
| KeyError            (* d[k] on a missing key *)
| StopIteration       (* next() on an exhausted generator *)
| AssertionError      (* a broken contract inside the engine *)
| ConfigurationError  (* the engine cannot deal the round *)
| InvalidBidError     (* the engine refuses a bid *)
| IllegalMoveError    (* the engine refuses a card *)
| BotError.           (* any exception of a bot's own *)

#[global] Instance exc_eq_dec : EqDecision exc.
Proof. solve_decision. Defined.

(** A call either returns a value or raises. *)
Inductive result (A : Type) : Type :=
| Ok (a : A)
| Raise (e : exc).
Arguments Ok {A} a.
Arguments Raise {A} e.

#[global] Instance result_eq_dec {A} `{EqDecision A} : EqDecision (result A).
Proof. solve_decision. Defined.

Definition bind {A B} (m : result A) (k : A → result B) : result B :=
  match m with
  | Ok a => k a
  | Raise e => Raise e
  end.

Definition returns {A} (m : result A) : Prop := ∃ a, m = Ok a.
Definition raises {A} (m : result A) : Prop := ∃ e, m = Raise e.

(** [sum(xs)] over integers. *)
Definition sum (xs : list Z) : Z := foldl Z.add 0 xs.

(** [min(xs, key=key)]: the first element whose key is minimal. *)
Fixpoint min_from {A} (key : A → Z) (best : A) (xs : list A) : A :=
  match xs with
  | [] => best
  | x :: xs' => min_from key (if bool_decide (key x < key best) then x else best) xs'
  end.

Definition min_by {A} (key : A → Z) (xs : list A) : result A :=
  match xs with
  | [] => Raise ValueError
  | x :: xs' => Ok (min_from key x xs')
  end.

(** [max(xs, key=key)]: the first element whose key is maximal. *)
Fixpoint max_from {A} (key : A → Z) (best : A) (xs : list A) : A :=
  match xs with
  | [] => best
  | x :: xs' => max_from key (if bool_decide (key best < key x) then x else best) xs'
  end.

Definition max_by {A} (key : A → Z) (xs : list A) : result A :=
  match xs with
  | [] => Raise ValueError
  | x :: xs' => Ok (max_from key x xs')
  end.

(** [xs[0]]. *)
Definition first {A} (xs : list A) : result A :=
  match xs with
  | [] => Raise IndexError
  | x :: _ => Ok x
  end.

(** [next(x for x in xs if p(x))]. *)
Definition next_where {A} (P : A → Prop) `{∀ x, Decision (P x)}
    (xs : list A) : result A :=
  match filter P xs with
  | [] => Raise StopIteration
  | x :: _ => Ok x
  end.

(** [d.get(k, dflt)] and [d[k]] on a dictionary keyed by object identity. *)
Definition get (d : gmap nat Z) (k : nat) (dflt : Z) : Z := default dflt (d !! k).

Definition item {V} (d : gmap nat V) (k : nat) : result V :=
  match d !! k with
  | Some v => Ok v
  | None => Raise KeyError
  end.

End Py.

#[global] Instance result_ret : MRet Py.result := @Py.Ok.
#[global] Instance result_bind : MBind Py.result := λ A B k m, Py.bind m k.

(** ** The [random] module

    Every call draws from an entropy source; the raw draw is an explicit
    argument [r], so that a bot's move is a function of its arguments and of
    the draw. *)

Module Random.

(** [random.randint(a, b)]: an integer [n] with [a <= n <= b]; an empty
    range raises [ValueError]. *)
Definition randint (r : Z) (a b : Z) : Py.result Z :=
  if bool_decide (b < a) then Py.Raise Py.ValueError
  else Py.Ok (a + r `mod` (b - a + 1)).

(** [random.choice(seq)]: an element of [seq]; an empty sequence raises
    [IndexError]. *)
Definition choice {A} (r : Z) (seq : list A) : Py.result A :=
  match seq !! Z.to_nat (r `mod` Z.of_nat (length seq)) with
  | Some x => Py.Ok x
  | None => Py.Raise Py.IndexError
  end.

End Random.

(** ** Cards *)

(** Modelled from the spec: [cards.py] is missing.  A card has a type, a suit
    (number cards only) and an integer value; two cards are equal when type,
    suit and value agree.  The bots read [card_type] and [value] only. *)
Module Cards.

Inductive CardType : Set := NUMBER | ESCAPE | PIRATE | MERMAID | SKULL_KING.

(** Several suits, one of them the trump suit; the spec names Yellow and
    Black. *)
Inductive Suit : Set := Yellow | Green | Purple | Black.

Record Card : Set := mkCard {
  card_type : CardType;
  suit : option Suit;
  value : Z
}.

#[global] Instance CardType_eq_dec : EqDecision CardType.
Proof. solve_decision. Defined.
#[global] Instance Suit_eq_dec : EqDecision Suit.
Proof. solve_decision. Defined.
#[global] Instance Card_eq_dec : EqDecision Card.
Proof. solve_decision. Defined.

(** How many cards of type [t] a hand holds. *)
Fixpoint count_type (t : CardType) (hand : list Card) : nat :=
  match hand with
  | [] => 0
  | c :: hand' =>
      if bool_decide (card_type c = t) then S (count_type t hand') else count_type t hand'
  end.

Definition number (s : Suit) (v : Z) : Card := mkCard NUMBER (Some s) v.
Definition special (t : CardType) : Card := mkCard t None 0.

End Cards.

Import Cards.

(** A player object is referred to by its identity. *)
Abbreviation PlayerId := nat (only parsing).

(** One play: [(player, card)]. *)
Abbreviation Play := (PlayerId * Card)%type (only parsing).

(** ** The example bots ([example_bots.py])

    Each class is a module with its two methods.  [self] is the identity of
    the player object; [r] is the draw that the [random] call of the method
    consumes, when it makes one. *)

Module DummyPlayer.

Definition make_bid (r : Z) (hand : list Card) (round_num : Z)
    (previous_bids : gmap PlayerId Z) : Py.result Z :=
  Random.randint r 0 round_num.

Definition play_card (self : PlayerId) (r : Z) (hand : list Card)
    (current_trick : list Play) (previous_tricks : list (list Play))
    (bids tricks_won : gmap PlayerId Z) (round_num : Z) : Py.result Card :=
  Random.choice r hand.

End DummyPlayer.

Module RandomBot.

Definition make_bid (r : Z) (hand : list Card) (round_num : Z)
    (previous_bids : gmap PlayerId Z) : Py.result Z :=
  Random.randint r 0 round_num.

Definition play_card (self : PlayerId) (r : Z) (hand : list Card)
    (current_trick : list Play) (previous_tricks : list (list Play))
    (bids tricks_won : gmap PlayerId Z) (round_num : Z) : Py.result Card :=
  Random.choice r hand.

End RandomBot.

Module ConservativeBot.

Definition make_bid (r : Z) (hand : list Card) (round_num : Z)
    (previous_bids : gmap PlayerId Z) : Py.result Z :=
  let escape_count :=
    Py.sum ((λ _, 1) <$> filter (λ card, card_type card = ESCAPE) hand) in
  if bool_decide (escape_count >= round_num) then Py.Ok 0
  else Py.Ok (Z.min 1 round_num).

Definition play_card (self : PlayerId) (r : Z) (hand : list Card)
    (current_trick : list Play) (previous_tricks : list (list Play))
    (bids tricks_won : gmap PlayerId Z) (round_num : Z) : Py.result Card :=
  let escape_cards := filter (λ c, card_type c = ESCAPE) hand in
  match escape_cards with
  | _ :: _ => Py.first escape_cards
  | [] =>
      let number_cards := filter (λ c, card_type c = NUMBER) hand in
      match number_cards with
      | _ :: _ => Py.min_by value number_cards
      | [] => Random.choice r hand
      end
  end.

End ConservativeBot.

Module AggressiveBot.

Definition make_bid (r : Z) (hand : list Card) (round_num : Z)
    (previous_bids : gmap PlayerId Z) : Py.result Z :=
  let strong_cards :=
    Py.sum ((λ _, 1) <$>
      filter (λ card, card_type card ∈ [PIRATE; MERMAID; SKULL_KING]
                      ∨ (card_type card = NUMBER ∧ value card >= 10)) hand) in
  let bid := Z.min strong_cards round_num in
  Py.Ok (Z.max 1 bid).

Definition play_card (self : PlayerId) (r : Z) (hand : list Card)
    (current_trick : list Play) (previous_tricks : list (list Play))
    (bids tricks_won : gmap PlayerId Z) (round_num : Z) : Py.result Card :=
  let tricks_needed := Py.get bids self 0 - Py.get tricks_won self 0 in
  let fallback := Random.choice r hand in
  if bool_decide (tricks_needed > 0 ∧ current_trick ≠ []) then
    let special_cards :=
      filter (λ c, card_type c ∈ [SKULL_KING; PIRATE; MERMAID]) hand in
    match special_cards with
    | _ :: _ =>
        if bool_decide (Exists (λ c, card_type c = SKULL_KING) special_cards)
        then Py.next_where (λ c, card_type c = SKULL_KING) special_cards
        else if bool_decide (Exists (λ c, card_type c = PIRATE) special_cards)
        then Py.next_where (λ c, card_type c = PIRATE) special_cards
        else Py.first special_cards
    | [] =>
        let number_cards := filter (λ c, card_type c = NUMBER) hand in
        match number_cards with
        | _ :: _ => Py.max_by value number_cards
        | [] => fallback
        end
    end
  else
    let escape_cards := filter (λ c, card_type c = ESCAPE) hand in
    match escape_cards with
    | _ :: _ => Py.first escape_cards
    | [] =>
        let number_cards := filter (λ c, card_type c = NUMBER) hand in
        match number_cards with
        | _ :: _ => Py.min_by value number_cards
        | [] => fallback
        end
    end.

End AggressiveBot.

(** The player contract: a player object has an identity, a name and the two
    decision methods. *)
Record Player : Type := mkPlayer {
  pid : PlayerId;
  name : string;
  make_bid : Z → list Card → Z → gmap PlayerId Z → Py.result Z;
  play_card : Z → list Card → list Play → list (list Play) →
              gmap PlayerId Z → gmap PlayerId Z → Z → Py.result Card
}.

Definition new_DummyPlayer (id : PlayerId) (nm : string) : Player :=
  mkPlayer id nm DummyPlayer.make_bid (DummyPlayer.play_card id).
Definition new_RandomBot (id : PlayerId) (nm : string) : Player :=
  mkPlayer id nm RandomBot.make_bid (RandomBot.play_card id).
Definition new_ConservativeBot (id : PlayerId) (nm : string) : Player :=
  mkPlayer id nm ConservativeBot.make_bid (ConservativeBot.play_card id).
Definition new_AggressiveBot (id : PlayerId) (nm : string) : Player :=
  mkPlayer id nm AggressiveBot.make_bid (AggressiveBot.play_card id).

(** ** Round state *)

(** Modelled from the spec: the state of one round, which [main.py] reads
    through [game.state], is declared in the missing [game_engine.py].  A
    trick is the ordered list of its plays ([cards_played]); no trick in
    progress is [None]. *)
Record RoundState : Type := mkRoundState {
  hands : gmap PlayerId (list Card);
  bids : gmap PlayerId Z;
  tricks : list (list Play);
  current_trick : option (list Play);
  tricks_won : gmap PlayerId Z
}.

(** ** The rules engine *)

(** Modelled from the spec: [game_engine.py] is missing; sections 4.1 to 4.4
    of the specification are followed.  Where the specification leaves a
    choice open the choice made is said at the definition. *)
Module GameEngine.

(** The trump suit; the specification's scenario names Black. *)
Definition trump : Suit := Black.

(** The suit led is the suit of the first number card of the trick. *)
Definition suit_led (trick : list Play) : option Suit :=
  match filter (λ p : Play, card_type p.2 = NUMBER) trick with
  | [] => None
  | p :: _ => suit p.2
  end.

(** Precedence among the card types (rules 1, 2, 3 and 5): does a card of
    type [a] beat a card of type [b]?  Number against number is decided by
    suit and value, below. *)
Definition type_beats (a b : CardType) : bool :=
  match a, b with
  | ESCAPE, _ => false
  | _, ESCAPE => true
  | SKULL_KING, (PIRATE | NUMBER) => true
  | MERMAID, (SKULL_KING | NUMBER) => true
  | PIRATE, (MERMAID | NUMBER) => true
  | _, _ => false
  end.

(** Rule 4: trump beats the other suits, the suit led beats the rest, and a
    card of neither cannot win. *)
Definition suit_rank (led : option Suit) (c : Card) : Z :=
  if bool_decide (suit c = Some trump) then 2
  else if bool_decide (suit c = led) then 1
  else 0.

Definition number_beats (led : option Suit) (new cur : Card) : bool :=
  bool_decide (suit_rank led cur < suit_rank led new
               ∨ (suit_rank led new = suit_rank led cur
                  ∧ 0 < suit_rank led new ∧ value cur < value new)).

(** Does the card [new] take the trick from [cur], played before it? *)
Definition beats (led : option Suit) (new cur : Card) : bool :=
  match card_type new, card_type cur with
  | NUMBER, NUMBER => number_beats led new cur
  | a, b => type_beats a b
  end.

(** The trick is read card by card; the best card so far is kept with its
    position, and gives way only to a card that beats it. *)
Fixpoint scan (led : option Suit) (best : nat * Card) (i : nat)
    (rest : list Card) : nat * Card :=
  match rest with
  | [] => best
  | c :: rest' =>
      scan led (if beats led c best.2 then (i, c) else best) (S i) rest'
  end.

(** The position of the winning play; an empty trick has none. *)
Definition winning_index (trick : list Play) : option nat :=
  match trick.*2 with
  | [] => None
  | c :: rest => Some (scan (suit_led trick) (0%nat, c) 1%nat rest).1
  end.

(** The winner of a trick, a pure function of its plays. *)
Definition trick_winner (trick : list Play) : Py.result PlayerId :=
  match winning_index trick ≫= (trick !!.) with
  | Some p => Py.Ok p.1
  | None => Py.Raise Py.AssertionError
  end.

(** *** Legality (4.2) *)

Definition is_special (c : Card) : Prop := card_type c ≠ NUMBER.

Definition get_legal_cards (st : RoundState) (player : PlayerId) : list Card :=
  let hand := default [] (hands st !! player) in
  match current_trick st with
  | None | Some [] => hand
  | Some trick =>
      let led := suit_led trick in
      match filter (λ c, (card_type c = NUMBER ∧ suit c = led) ∨ is_special c) hand with
      | [] => hand
      | legal => legal
      end
  end.

(** *** Scoring (4.3) *)

(** The base rule; the specification gives no score outside these four
    cases. *)
Definition round_score (round_num bid won bonus : Z) : option Z :=
  if bool_decide (bid = 0 ∧ won = 0) then Some (20 * round_num)
  else if bool_decide (bid = 0 ∧ won > 0) then Some (-10 * round_num * won)
  else if bool_decide (bid > 0 ∧ won = bid) then Some (20 * bid + bonus)
  else if bool_decide (bid > 0 ∧ won ≠ bid) then Some (-10 * Z.abs (bid - won))
  else None.

(** The bonus a player earned: the bonus table read over the completed
    tricks the player won.  The table itself is not given by the
    specification and is a parameter of the game. *)
Definition bonus_of (table : list Play → Z) (done : list (list Play))
    (player : PlayerId) : Z :=
  Py.sum (table <$> filter (λ t, trick_winner t = Py.Ok player) done).

(** *** The match (4.4) *)

Record Game : Type := mkGame {
  players : list Player;
  num_rounds : Z;
  current_round : Z;
  state : RoundState;
  total_scores : gmap PlayerId Z;
  deck : list Card;
  bonus_table : list Play → Z;
  entropy : nat → Z;          (* the draws of the [random] module *)
  drawn : nat                 (* how many were consumed *)
}.

Definition empty_round : RoundState := mkRoundState ∅ ∅ [] None ∅.

Definition SkullKingGame (deck : list Card) (table : list Play → Z)
    (entropy : nat → Z) (bots : list Player) (num_rounds : Z) : Game :=
  mkGame bots num_rounds 0 empty_round
         (list_to_map ((λ b, (pid b, 0)) <$> bots)) deck table entropy 0.

Definition with_state (g : Game) (st : RoundState) : Game :=
  mkGame (players g) (num_rounds g) (current_round g) st (total_scores g)
         (deck g) (bonus_table g) (entropy g) (drawn g).

Definition set_current_round (n : Z) (g : Game) : Game :=
  mkGame (players g) (num_rounds g) n (state g) (total_scores g)
         (deck g) (bonus_table g) (entropy g) (drawn g).

(** [random.shuffle]: for [i] from the last position down to 1, exchange
    position [i] with a drawn position [j <= i]. *)
Definition swap (i j : nat) (x : list Card) : list Card :=
  match x !! i, x !! j with
  | Some a, Some b => <[j:=a]> (<[i:=b]> x)
  | _, _ => x
  end.

Fixpoint shuffle_from (tape : nat → Z) (pos i : nat) (x : list Card) : list Card :=
  match i with
  | O => x
  | S i' =>
      let j := Z.to_nat (tape pos `mod` Z.of_nat (S i)) in
      shuffle_from tape (S pos) i' (swap i j x)
  end.

Definition shuffle (tape : nat → Z) (pos : nat) (x : list Card) : list Card :=
  shuffle_from tape pos (length x - 1) x.

(** Hands of [n] cards each, dealt off the top of the deck in player order. *)
Fixpoint deal_hands (n : nat) (ps : list Player) (cards : list Card)
    : gmap PlayerId (list Card) :=
  match ps with
  | [] => ∅
  | p :: ps' => <[pid p := take n cards]> (deal_hands n ps' (drop n cards))
  end.

Definition zeroes (ps : list Player) : gmap PlayerId Z :=
  list_to_map ((λ b, (pid b, 0)) <$> ps).

Definition start_round (n : Z) (g : Game) : Py.result Game :=
  if bool_decide (n * Z.of_nat (length (players g)) > Z.of_nat (length (deck g)))
  then Py.Raise Py.ConfigurationError
  else
    let cards := shuffle (entropy g) (drawn g) (deck g) in
    let st := mkRoundState (deal_hands (Z.to_nat n) (players g) cards)
                           ∅ [] None (zeroes (players g)) in
    Py.Ok (mkGame (players g) (num_rounds g) (current_round g) st
                  (total_scores g) (deck g) (bonus_table g) (entropy g)
                  (drawn g + (length (deck g) - 1))%nat).

(** Every player bids in turn, seeing the bids made before. *)
Fixpoint bid_all (tape : nat → Z) (pos : nat) (round_num : Z)
    (hs : gmap PlayerId (list Card)) (ps : list Player)
    (sofar : gmap PlayerId Z) : Py.result (gmap PlayerId Z) :=
  match ps with
  | [] => Py.Ok sofar
  | p :: ps' =>
      bid ← make_bid p (tape pos) (default [] (hs !! pid p)) round_num sofar;
      if bool_decide (0 <= bid <= round_num)
      then bid_all tape (S pos) round_num hs ps' (<[pid p := bid]> sofar)
      else Py.Raise Py.InvalidBidError
  end.

Definition collect_bids (g : Game) : Py.result Game :=
  let st := state g in
  bs ← bid_all (entropy g) (drawn g) (current_round g) (hands st) (players g) ∅;
  Py.Ok (mkGame (players g) (num_rounds g) (current_round g)
           (mkRoundState (hands st) bs (tricks st) (current_trick st) (tricks_won st))
           (total_scores g) (deck g) (bonus_table g) (entropy g)
           (drawn g + length (players g))%nat).

Definition start_trick (g : Game) : Game :=
  let st := state g in
  with_state g (mkRoundState (hands st) (bids st) (tricks st) (Some []) (tricks_won st)).

(** [hand.remove(card)]: the first occurrence goes. *)
Fixpoint remove_first (card : Card) (hand : list Card) : list Card :=
  match hand with
  | [] => []
  | c :: hand' => if bool_decide (c = card) then hand' else c :: remove_first card hand'
  end.

Definition play_card (player : PlayerId) (card : Card) (g : Game) : Py.result Game :=
  let st := state g in
  if bool_decide (card ∈ get_legal_cards st player) then
    let hs := <[player := remove_first card (default [] (hands st !! player))]> (hands st) in
    let trick := default [] (current_trick st) ++ [(player, card)] in
    if bool_decide (length trick = length (players g)) then
      winner ← trick_winner trick;
      Py.Ok (with_state g
        (mkRoundState hs (bids st) (tricks st ++ [trick]) None
           (<[winner := Py.get (tricks_won st) winner 0 + 1]> (tricks_won st))))
    else
      Py.Ok (with_state g
        (mkRoundState hs (bids st) (tricks st) (Some trick) (tricks_won st)))
  else Py.Raise Py.IllegalMoveError.

Definition is_round_complete (g : Game) : bool :=
  bool_decide (map_Forall (λ _ hand, hand = []) (hands (state g))
               ∧ current_trick (state g) = None).

Definition check_special_bonuses (g : Game) : gmap PlayerId Z :=
  list_to_map ((λ b, (pid b, bonus_of (bonus_table g) (tricks (state g)) (pid b)))
               <$> players g).

(** What the base rule gives one player, from the round's state. *)
Definition score_of (g : Game) (p : Player) : option Z :=
  round_score (current_round g)
    (Py.get (bids (state g)) (pid p) 0) (Py.get (tricks_won (state g)) (pid p) 0)
    (bonus_of (bonus_table g) (tricks (state g)) (pid p)).

Fixpoint score_all (g : Game) (ps : list Player) : Py.result (gmap PlayerId Z) :=
  match ps with
  | [] => Py.Ok ∅
  | p :: ps' =>
      match score_of g p with
      | Some x => m ← score_all g ps'; Py.Ok (<[pid p := x]> m)
      | None => Py.Raise Py.AssertionError
      end
  end.

(** The scores of the round, a function of the round's state; they are
    added to the totals of the match. *)
Definition calculate_scores (g : Game) : Py.result (gmap PlayerId Z * Game) :=
  m ← score_all g (players g);
  Py.Ok (m, mkGame (players g) (num_rounds g) (current_round g) (state g)
              (union_with (λ a b, Some (a + b)) (total_scores g) m)
              (deck g) (bonus_table g) (entropy g) (drawn g)).

(** The cumulative totals, in player order; meant to be asked once the
    last round is scored. *)
Definition get_final_scores (g : Game) : list (Player * Z) :=
  (λ b, (b, Py.get (total_scores g) (pid b) 0)) <$> players g.

End GameEngine.

(** ** What [main.py] asks of the engine and of the display *)

(** The methods of [SkullKingGame] (and of its [state]) and of the GUI that
    [main.py] calls.  Their code is missing, so they are parameters of the
    runner.  A game object is threaded as a value; a call that raises leaves
    the game as it was. *)
Class Engine (G : Type) : Type := {
  game_new : list Player → Z → G;                      (* SkullKingGame(bots, n) *)
  game_set_current_round : Z → G → G;                  (* game.current_round = n *)
  game_start_round : Z → G → Py.result G;
  game_collect_bids : G → Py.result G;
  game_start_trick : G → Py.result G;
  game_play_card : PlayerId → Card → G → Py.result G;
  game_is_round_complete : G → bool;
  game_calculate_scores : G → Py.result (gmap PlayerId Z * G);
  game_check_special_bonuses : G → Py.result (gmap PlayerId Z * G);
  game_get_final_scores : G → Py.result (list (Player * Z));
  game_state : G → RoundState;                         (* game.state *)
  state_get_legal_cards : G → PlayerId → list Card;    (* game.state.get_legal_cards *)
  gui_session : G → Py.result G                        (* SkullKingGUI(game) ... run() *)
}.

(** The specified engine is one such engine, for any deck, bonus table and
    entropy; its display plays nothing. *)
#[global] Instance GameEngine_Engine (deck : list Card) (table : list Play → Z)
    (entropy : nat → Z) : Engine GameEngine.Game := {
  game_new := GameEngine.SkullKingGame deck table entropy;
  game_set_current_round := GameEngine.set_current_round;
  game_start_round := GameEngine.start_round;
  game_collect_bids := GameEngine.collect_bids;
  game_start_trick := λ g, Py.Ok (GameEngine.start_trick g);
  game_play_card := GameEngine.play_card;
  game_is_round_complete := GameEngine.is_round_complete;
  game_calculate_scores := GameEngine.calculate_scores;
  game_check_special_bonuses := λ g, Py.Ok (GameEngine.check_special_bonuses g, g);
  game_get_final_scores := λ g, Py.Ok (GameEngine.get_final_scores g);
  game_state := GameEngine.state;
  state_get_legal_cards := λ g, GameEngine.get_legal_cards (GameEngine.state g);
  gui_session := Py.Ok
}.

(** ** The competition runner ([main.py]) *)

Module Main.

(** What the runner prints, one constructor per [print] statement. *)
Inductive line : Type :=
| NeedTwoBots                              (* Error: Need at least 2 bots to play *)
| Starting (n : nat)
| BotNames (names : list string)
| Separator                                (* "=" * 50 *)
| Dashes                                   (* "-" * 50 *)
| FinalResults
| Ranked (i : nat) (nm : string) (score : Z)
| GameHeader (k n : Z)
| RoundHeader (n : Z)
| Bids (l : list (string * Z))
| Error (e : Py.exc)
| TricksWon (l : list (string * Z))
| RoundScores (l : list (string * Z))
| Bonuses (l : list (string * Z))
| FinalScores (l : list (string * Z))
| Statistics
| Average (nm : string) (total : Z) (games : nat).

(** The calls into the engine and the display. *)
Inductive call : Type :=
| SkullKingGame (bots : list Player) (num_rounds : Z)
| SetCurrentRound (n : Z)
| StartRound (n : Z)
| CollectBids
| StartTrick
| PlayCard (player : PlayerId) (card : Card)
| CalculateScores
| CheckSpecialBonuses
| GetFinalScores
| Gui.

Inductive event : Type :=
| Print (l : line)
| Do (c : call).

(** The runner's world: what happened so far, and how many draws the
    players' moves consumed. *)
Record world : Type := mkWorld { log : list event; draws : nat }.

(** How a run ends: it returns, an exception escapes, or the fuel given to
    its [while] loops is used up before they end. *)
Inductive status (A : Type) : Type :=
| Returned (a : A)
| Crashed (e : Py.exc)
| Unfinished.
Arguments Returned {A} a.
Arguments Crashed {A} e.
Arguments Unfinished {A}.

Definition run (A : Type) : Type := world → world * status A.

Definition ret {A} (a : A) : run A := λ w, (w, Returned a).

Definition bind {A B} (m : run A) (k : A → run B) : run B :=
  λ w, match m w with
       | (w', Returned a) => k a w'
       | (w', Crashed e) => (w', Crashed e)
       | (w', Unfinished) => (w', Unfinished)
       end.

Definition emit (e : event) : run () :=
  λ w, (mkWorld (log w ++ [e]) (draws w), Returned ()).

Definition print (l : line) : run () := emit (Print l).

Definition lift {A} (m : Py.result A) : run A :=
  λ w, match m with
       | Py.Ok a => (w, Returned a)
       | Py.Raise e => (w, Crashed e)
       end.

(** A call into the engine: recorded, then made. *)
Definition engine {A} (c : call) (m : Py.result A) : run A :=
  bind (emit (Do c)) (λ _, lift m).

Definition out_of_fuel {A} : run A := λ w, (w, Unfinished).

(** [try: body except Exception as e: handler(e)]. *)
Definition try_except {A} (body : run A) (handler : Py.exc → run A) : run A :=
  λ w, match body w with
       | (w', Crashed e) => handler e w'
       | r => r
       end.

(** [for x in xs: body], threading the loop's variables [a]. *)
Fixpoint for_each {X A} (xs : list X) (body : X → A → run A) (a : A) : run A :=
  match xs with
  | [] => ret a
  | x :: xs' => bind (body x a) (for_each xs' body)
  end.

#[export] Instance run_ret : MRet run := @ret.
#[export] Instance run_bind : MBind run := λ A B k m, bind m k.

(** [sorted(items, key=lambda x: x[1], reverse=True)]: the stable sort by
    descending score; of two items with equal scores the one that came
    first stays first. *)
Fixpoint insert_desc {A} (x : A * Z) (l : list (A * Z)) : list (A * Z) :=
  match l with
  | [] => [x]
  | y :: l' => if bool_decide (y.2 <= x.2) then x :: y :: l' else y :: insert_desc x l'
  end.

Definition sorted_desc {A} (items : list (A * Z)) : list (A * Z) :=
  foldr insert_desc [] items.

(** [d[p]] on a dictionary keyed by player objects, given by its items. *)
Definition item_of (d : list (Player * Z)) (p : Player) : Py.result Z :=
  match filter (λ kv : Player * Z, pid kv.1 = pid p) d with
  | kv :: _ => Py.Ok kv.2
  | [] => Py.Raise Py.KeyError
  end.

(** [[(p.name, d[p]) for p in bots]]. *)
Fixpoint named (d : gmap PlayerId Z) (bots : list Player) : Py.result (list (string * Z)) :=
  match bots with
  | [] => Py.Ok []
  | p :: bots' => v ← Py.item d (pid p); l ← named d bots'; Py.Ok ((name p, v) :: l)
  end.

Fixpoint named_items (d : list (Player * Z)) (bots : list Player)
    : Py.result (list (string * Z)) :=
  match bots with
  | [] => Py.Ok []
  | p :: bots' => v ← item_of d p; l ← named_items d bots'; Py.Ok ((name p, v) :: l)
  end.

(** [[(p.name, d[p]) for p in bots if d[p] > 0]]. *)
Fixpoint named_positive (d : gmap PlayerId Z) (bots : list Player)
    : Py.result (list (string * Z)) :=
  match bots with
  | [] => Py.Ok []
  | p :: bots' =>
      v ← Py.item d (pid p);
      l ← named_positive d bots';
      Py.Ok (if bool_decide (v > 0) then (name p, v) :: l else l)
  end.

(** The list of three bots that [create_competition_bots] builds. *)
Definition create_competition_bots : list Player :=
  [ new_RandomBot 0 "RandomBot";
    new_ConservativeBot 1 "ConservativeBot";
    new_AggressiveBot 2 "AggressiveBot" ].

(** The card handed to the engine, given the card the player returned:
    [if card not in legal_cards: card = legal_cards[0] if legal_cards else hand[0]]. *)
Definition checked_card (card : Card) (legal_cards hand : list Card) : Py.result Card :=
  if bool_decide (card ∉ legal_cards) then
    match legal_cards with
    | _ :: _ => Py.first legal_cards
    | [] => Py.first hand
    end
  else Py.Ok card.

Section runner.
Context {G : Type} `{!Engine G}.

(** The draws that the players' moves consume, one per call. *)
Variable tape : nat → Z.

(** The participants: what [create_competition_bots()] returned. *)
Variable bots : list Player.

Definition draw : run Z :=
  λ w, (mkWorld (log w) (S (draws w)), Returned (tape (draws w))).

(** The [try] block of one turn: ask the player, check the card, play it. *)
Definition ask_and_play (next_player : Player) (hand : list Card)
    (current_trick_list : list Play) (previous_tricks : list (list Play))
    (round_num : Z) (game : G) : run G :=
  r ← draw;
  card ← lift (play_card next_player r hand current_trick_list previous_tricks
                 (bids (game_state game)) (tricks_won (game_state game)) round_num);
  let legal_cards := state_get_legal_cards game (pid next_player) in
  card ← lift (checked_card card legal_cards hand);
  engine (PlayCard (pid next_player) card)
         (game_play_card (pid next_player) card game).

(** One pass through the body of the inner [while]: the next player who
    has not played in the trick moves.  [None] is the [break]. *)
Definition play_turn (round_num : Z) (game : G) : run (option G) :=
  let cards_played := default [] (current_trick (game_state game)) in
  next_player ← lift (Py.next_where (λ p, pid p ∉ cards_played.*1) bots);
  hand ← lift (Py.item (hands (game_state game)) (pid next_player));
  let current_trick_list := cards_played in
  let previous_tricks := tricks (game_state game) in
  try_except
    (game' ← ask_and_play next_player hand current_trick_list previous_tricks
               round_num game;
     mret (Some game'))
    (λ e, print (Error e);; mret None).

(** [while game.state.current_trick and len(cards_played) < len(bots)]. *)
Fixpoint play_trick (fuel : nat) (round_num : Z) (game : G) : run G :=
  match current_trick (game_state game) with
  | Some cards_played =>
      if bool_decide (length cards_played < length bots)%nat then
        match fuel with
        | O => out_of_fuel
        | S fuel' =>
            o ← play_turn round_num game;
            match o with
            | Some game' => play_trick fuel' round_num game'
            | None => mret game
            end
        end
      else mret game
  | None => mret game
  end.

(** [while not game.is_round_complete()]. *)
Fixpoint play_tricks (fuel inner : nat) (round_num : Z) (game : G) : run G :=
  if game_is_round_complete game then mret game
  else
    match fuel with
    | O => out_of_fuel
    | S fuel' =>
        game ← (match current_trick (game_state game) with
                | None => engine StartTrick (game_start_trick game)
                | Some _ => mret game
                end);
        game ← play_trick inner round_num game;
        play_tricks fuel' inner round_num game
    end.

(** The body of [for round_num in range(1, num_rounds + 1)]. *)
Definition play_round (fuel : nat) (round_num : Z) (game : G) : run G :=
  emit (Do (SetCurrentRound round_num));;
  let game := game_set_current_round round_num game in
  game ← engine (StartRound round_num) (game_start_round round_num game);
  game ← engine CollectBids (game_collect_bids game);
  print (RoundHeader round_num);;
  l ← lift (named (bids (game_state game)) bots);
  print (Bids l);;
  game ← play_tricks fuel fuel round_num game;
  '(round_scores, game) ← engine CalculateScores (game_calculate_scores game);
  '(bonuses, game) ← engine CheckSpecialBonuses (game_check_special_bonuses game);
  l ← lift (named (tricks_won (game_state game)) bots);
  print (TricksWon l);;
  l ← lift (named round_scores bots);
  print (RoundScores l);;
  (if bool_decide (map_Exists (λ _ v, v ≠ 0) bonuses) then
     l ← lift (named_positive bonuses bots);
     print (Bonuses l)
   else mret ());;
  mret game.

(** The body of [for game_num in range(num_games)]. *)
Definition play_game (fuel : nat) (num_rounds num_games : Z) (game_num : Z)
    (all_scores : gmap PlayerId (list Z)) : run (gmap PlayerId (list Z)) :=
  print (GameHeader (game_num + 1) num_games);;
  print Dashes;;
  game ← engine (SkullKingGame bots num_rounds) (Py.Ok (game_new bots num_rounds));
  game ← for_each (seqZ 1 num_rounds) (play_round fuel) game;
  final_scores ← engine GetFinalScores (game_get_final_scores game);
  all_scores ← for_each bots
    (λ bot all_scores,
       sofar ← lift (Py.item all_scores (pid bot));
       score ← lift (item_of final_scores bot);
       mret (<[pid bot := sofar ++ [score]]> all_scores))
    all_scores;
  l ← lift (named_items final_scores bots);
  print (FinalScores l);;
  mret all_scores.

(** [run_competition_headless], on the participants [bots]. *)
Definition run_competition_headless_on (fuel : nat) (num_rounds num_games : Z) : run () :=
  if bool_decide (length bots < 2)%nat then
    print NeedTwoBots
  else
    let all_scores : gmap PlayerId (list Z) :=
      list_to_map ((λ bot, (pid bot, [])) <$> bots) in
    all_scores ← for_each (seqZ 0 num_games) (play_game fuel num_rounds num_games)
                   all_scores;
    if bool_decide (num_games > 1) then
      print Separator;;
      print Statistics;;
      print Separator;;
      for_each bots
        (λ bot _,
           scores ← lift (Py.item all_scores (pid bot));
           print (Average (name bot) (Py.sum scores) (length scores)))
        ();;
      print Separator
    else mret ().

(** What [run_competition_with_gui] prints at the end, given the final
    scores: [for i, (player, score) in enumerate(sorted_scores, 1)]. *)
Definition final_ranking (final_scores : list (Player * Z)) : list line :=
  imap (λ i ps, Ranked (S i) (name ps.1) ps.2) (sorted_desc final_scores).

(** [run_competition_with_gui], on the participants [bots]. *)
Definition run_competition_with_gui_on (num_rounds : Z) : run () :=
  if bool_decide (length bots < 2)%nat then
    print NeedTwoBots
  else
    print (Starting (length bots));;
    print (BotNames (name <$> bots));;
    game ← engine (SkullKingGame bots num_rounds) (Py.Ok (game_new bots num_rounds));
    emit (Do (SetCurrentRound 1));;
    let game := game_set_current_round 1 game in
    game ← engine (StartRound 1) (game_start_round 1 game);
    game ← engine CollectBids (game_collect_bids game);
    game ← engine StartTrick (game_start_trick game);
    game ← engine Gui (gui_session game);
    final_scores ← engine GetFinalScores (game_get_final_scores game);
    print Separator;;
    print FinalResults;;
    print Separator;;
    for_each (final_ranking final_scores) (λ l _, print l) ();;
    print Separator.
End runner.

Section entry_points.
Context {G : Type} `{!Engine G}.
Variable tape : nat → Z.


End entry_points.

Definition start : world := mkWorld [] 0.

(** The engine calls of a run, in order. *)
Definition call_of (e : event) : option call :=
  match e with Do c => Some c | Print _ => None end.

Definition calls_of (w : world) : list call := omap call_of (log w).



(** An event that constructs no game but one over [bots], for [num_rounds]
    rounds. *)
Definition builds_only (bots : list Player) (num_rounds : Z) (e : event) : Prop :=
  ∀ bs n, e = Do (SkullKingGame bs n) → bs = bots ∧ n = num_rounds.

(** A computation that only adds to the log, and only events that
    satisfy [P]. *)
Definition adds_only {A} (P : event → Prop) (m : run A) : Prop :=
  ∀ w, ∃ l, log (m w).1 = log w ++ l ∧ Forall P l.

(** An event that constructs no game at all. *)
Definition builds_nothing (e : event) : Prop := ∀ bs n, e ≠ Do (SkullKingGame bs n).




(** The calls of the GUI entry point. *)
Definition gui_calls (bots : list Player) (num_rounds : Z) : list call :=
  [ SkullKingGame bots num_rounds; SetCurrentRound 1; StartRound 1; CollectBids;
    StartTrick; Gui; GetFinalScores ].

(** A call that the headless entry point may make for the bots [bots] and
    [num_rounds] rounds: never the display, a card only for a bot of the
    list, a round only from 1 to [num_rounds], a game only over the bots. *)
Definition headless_call (bots : list Player) (num_rounds : Z) (c : call) : Prop :=
  match c with
  | Gui => False
  | PlayCard player _ => ∃ p, p ∈ bots ∧ pid p = player
  | StartRound n | SetCurrentRound n => 1 <= n <= num_rounds
  | SkullKingGame bs n => bs = bots ∧ n = num_rounds
  | _ => True
  end.

Definition headless_event (bots : list Player) (num_rounds : Z) (e : event) : Prop :=
  match e with
  | Do c => headless_call bots num_rounds c
  | Print _ => True
  end.

(** A line of the statistics. *)
Definition statistics_line (l : line) : Prop :=
  match l with
  | Statistics | Average _ _ _ => True
  | _ => False
  end.

(** The lines of a run, in order. *)
Definition line_of (e : event) : option line :=
  match e with Print l => Some l | Do _ => None end.

Definition printed (w : world) : list line := omap line_of (log w).
End Main.

(** ** Counting strong cards *)

(** A strong card, for [AggressiveBot]: a Pirate, a Mermaid, the Skull King,
    or a number card of value 10 or more. *)
Definition strong (c : Card) : bool :=
  match card_type c with
  | PIRATE | MERMAID | SKULL_KING => true
  | NUMBER => bool_decide (10 <= value c)
  | ESCAPE => false
  end.

Fixpoint count_strong (hand : list Card) : nat :=
  match hand with
  | [] => 0
  | c :: hand' => if strong c then S (count_strong hand') else count_strong hand'
  end.

(** ** Sample data *)


Definition new_StubbornBot (id : PlayerId) (nm : string) : Player :=
  mkPlayer id nm (λ _ _ _ _, Py.Ok 0) (λ _ _ _ _ _ _ _, Py.Ok (special SKULL_KING)).

(** A deck with the number cards 1 to 14 of four suits and the special
    cards, a bonus table that awards nothing, and a fixed sequence of draws. *)
Definition sample_deck : list Card :=
  (s ← [Yellow; Green; Purple; Black]; v ← seqZ 1 14; [number s v])
  ++ replicate 5 (special ESCAPE) ++ replicate 5 (special PIRATE)
  ++ replicate 2 (special MERMAID) ++ [special SKULL_KING].

Definition no_bonus (trick : list Play) : Z := 0.

Definition sample_draws (n : nat) : Z := (Z.of_nat n * 7919 + 104729) `mod` 1000003.

Definition sample_engine : Engine GameEngine.Game :=
  GameEngine_Engine sample_deck no_bonus sample_draws.

(** Round 3 after its three tricks: the bids were 0, 1 and 2, and the third
    player took two tricks, the second one. *)
Definition scored_round : GameEngine.Game :=
  GameEngine.mkGame Main.create_competition_bots 3 3
    (mkRoundState {[0%nat := []; 1%nat := []; 2%nat := []]}
       {[0%nat := 0; 1%nat := 1; 2%nat := 2]}
       [ [(0%nat, number Yellow 5); (1%nat, number Yellow 9); (2%nat, special PIRATE)];
         [(2%nat, number Green 3); (0%nat, number Green 2); (1%nat, number Green 7)];
         [(1%nat, number Purple 4); (2%nat, number Black 1); (0%nat, special ESCAPE)] ]
       None
       {[0%nat := 0; 1%nat := 1; 2%nat := 2]})
    (GameEngine.zeroes Main.create_competition_bots) sample_deck no_bonus sample_draws 0.

(** Round 2, first trick: the first player has led the Yellow 5; the second
    player, a [ConservativeBot], holds the Green 2 and the Yellow 9. *)
Definition sample_trick_state : RoundState :=
  mkRoundState
    {[0%nat := [number Purple 7];
      1%nat := [number Green 2; number Yellow 9];
      2%nat := [special PIRATE; number Black 4]]}
    {[0%nat := 1; 1%nat := 1; 2%nat := 1]}
    []
    (Some [(0%nat, number Yellow 5)])
    {[0%nat := 0; 1%nat := 0; 2%nat := 0]}.

Definition sample_trick : GameEngine.Game :=
  GameEngine.mkGame Main.create_competition_bots 10 2 sample_trick_state
    (GameEngine.zeroes Main.create_competition_bots) sample_deck no_bonus sample_draws 0.



(** A state in which the second seat has no card left, with a bot there
    that returns the Skull King all the same. *)
Definition stubborn_bots : list Player :=
  [ new_RandomBot 0 "RandomBot"; new_StubbornBot 1 "StubbornBot";
    new_AggressiveBot 2 "AggressiveBot" ].

Definition empty_hand_trick : GameEngine.Game :=
  GameEngine.mkGame stubborn_bots 10 2
    (mkRoundState
       {[0%nat := [number Purple 7]; 1%nat := []; 2%nat := [special PIRATE]]}
       {[0%nat := 1; 1%nat := 1; 2%nat := 1]}
       []
       (Some [(0%nat, number Yellow 5)])
       {[0%nat := 0; 1%nat := 0; 2%nat := 0]})
    (GameEngine.zeroes stubborn_bots) sample_deck no_bonus sample_draws 0.

(** The same bot object listed twice, after its first card of a trick. *)
Definition twice_listed : list Player :=
  [ new_RandomBot 0 "RandomBot"; new_RandomBot 0 "RandomBot" ].

Definition twice_listed_trick : GameEngine.Game :=
  GameEngine.mkGame twice_listed 10 1
    (mkRoundState {[0%nat := []]} {[0%nat := 1]} []
       (Some [(0%nat, number Yellow 5)]) {[0%nat := 0]})
    (GameEngine.zeroes twice_listed) sample_deck no_bonus sample_draws 0.

(** A state whose hands do not know the second player. *)
Definition no_hand_trick : GameEngine.Game :=
  GameEngine.mkGame Main.create_competition_bots 10 2
    (mkRoundState {[0%nat := [number Purple 7]]} ∅ []
       (Some [(0%nat, number Yellow 5)]) ∅)
    (GameEngine.zeroes Main.create_competition_bots) sample_deck no_bonus sample_draws 0.

(** An engine whose deck has a single card: no round can be dealt. *)
Definition tiny_engine : Engine GameEngine.Game :=
  GameEngine_Engine [special ESCAPE] no_bonus sample_draws.

(** An engine that forgets the bots when asked for the final scores. *)
Definition forgetful_engine : Engine GameEngine.Game := {|
  game_new := GameEngine.SkullKingGame sample_deck no_bonus sample_draws;
  game_set_current_round := GameEngine.set_current_round;
  game_start_round := GameEngine.start_round;
  game_collect_bids := GameEngine.collect_bids;
  game_start_trick := λ g, Py.Ok (GameEngine.start_trick g);
  game_play_card := GameEngine.play_card;
  game_is_round_complete := GameEngine.is_round_complete;
  game_calculate_scores := GameEngine.calculate_scores;
  game_check_special_bonuses := λ g, Py.Ok (GameEngine.check_special_bonuses g, g);
  game_get_final_scores := λ g, Py.Ok [];
  game_state := GameEngine.state;
  state_get_legal_cards := λ g, GameEngine.get_legal_cards (GameEngine.state g);
  gui_session := Py.Ok
|}.

(** Final scores with a tie between the second and the third bot. *)
Definition tied_scores : list (Player * Z) :=
  [ (new_RandomBot 0 "RandomBot", 10);
    (new_ConservativeBot 1 "ConservativeBot", 30);
    (new_AggressiveBot 2 "AggressiveBot", 30) ].

(** ** What the runner relies on *)

(** A card that the engine accepts goes to the end of the trick in
    progress, unless it completes the trick, which is then put away. *)
Definition trick_grows {G : Type} `{!Engine G} : Prop :=
  ∀ (player : PlayerId) (card : Card) (game game' : G) (cards_played : list Play),
    game_play_card player card game = Py.Ok game' →
    current_trick (game_state game) = Some cards_played →
    current_trick (game_state game') = None
    ∨ current_trick (game_state game') = Some (cards_played ++ [(player, card)]).

(** * Properties *)

(** ** Python runtime *)

Section runtime.
Context {A : Type}.
Implicit Types (xs : list A) (key : A → Z).

Lemma sum_from_ones (n : Z) (xs : list A) :
  foldl Z.add n ((λ _, 1) <$> xs) = n + Z.of_nat (length xs).
Proof.
  revert n. induction xs as [|x xs IH]; intros n; simpl.
  - lia.
  - rewrite IH. lia.
Qed.

Lemma sum_ones xs : Py.sum ((λ _, 1) <$> xs) = Z.of_nat (length xs).
Proof. unfold Py.sum. rewrite sum_from_ones. lia. Qed.

Lemma min_from_elem key best xs : Py.min_from key best xs ∈ best :: xs.
Proof.
  revert best. induction xs as [|x xs IH]; intros best; simpl.
  - apply elem_of_cons; by left.
  - pose proof (IH (if bool_decide (key x < key best) then x else best)) as Hin.
    clear IH. destruct (bool_decide (key x < key best));
      repeat rewrite elem_of_cons in Hin; repeat rewrite elem_of_cons; tauto.
Qed.

Lemma max_from_elem key best xs : Py.max_from key best xs ∈ best :: xs.
Proof.
  revert best. induction xs as [|x xs IH]; intros best; simpl.
  - apply elem_of_cons; by left.
  - pose proof (IH (if bool_decide (key best < key x) then x else best)) as Hin.
    clear IH. destruct (bool_decide (key best < key x));
      repeat rewrite elem_of_cons in Hin; repeat rewrite elem_of_cons; tauto.
Qed.

Lemma min_by_elem key xs : xs ≠ [] → ∃ x, Py.min_by key xs = Py.Ok x ∧ x ∈ xs.
Proof. destruct xs as [|x xs]; [done|]. intros _. eexists; split; [done|]. apply min_from_elem. Qed.

Lemma max_by_elem key xs : xs ≠ [] → ∃ x, Py.max_by key xs = Py.Ok x ∧ x ∈ xs.
Proof. destruct xs as [|x xs]; [done|]. intros _. eexists; split; [done|]. apply max_from_elem. Qed.

Lemma first_elem xs : xs ≠ [] → ∃ x, Py.first xs = Py.Ok x ∧ x ∈ xs.
Proof. destruct xs as [|x xs]; [done|]. intros _. exists x. split; [done|]. apply elem_of_cons; by left. Qed.

Lemma next_where_elem (P : A → Prop) `{∀ x, Decision (P x)} xs :
  Exists P xs → ∃ x, Py.next_where P xs = Py.Ok x ∧ x ∈ xs ∧ P x.
Proof.
  intros HE. unfold Py.next_where.
  destruct (filter P xs) as [|x l] eqn:E.
  - apply Exists_exists in HE as (x & Hx & HP).
    assert (x ∈ filter P xs) as Hin by (apply list_elem_of_filter; done).
    rewrite E in Hin. by apply elem_of_nil in Hin.
  - assert (x ∈ filter P xs) as Hin by (rewrite E; apply elem_of_cons; by left).
    apply list_elem_of_filter in Hin as [? ?]. eauto.
Qed.

Lemma choice_elem (r : Z) xs : xs ≠ [] → ∃ x, Random.choice r xs = Py.Ok x ∧ x ∈ xs.
Proof.
  intros Hne. unfold Random.choice.
  assert (0 < Z.of_nat (length xs)) as Hlen by (destruct xs; [done | simpl; lia]).
  pose proof (Z.mod_pos_bound r _ Hlen) as Hb.
  destruct (lookup_lt_is_Some_2 xs (Z.to_nat (r `mod` Z.of_nat (length xs)))) as [x Hx]; [lia|].
  rewrite Hx. exists x. split; [done|]. by eapply list_elem_of_lookup_2.
Qed.

Lemma choice_empty (r : Z) : Random.choice r (@nil A) = Py.Raise Py.IndexError.
Proof. done. Qed.
End runtime.

Lemma randint_range (r a b : Z) :
  a <= b → ∃ n, Random.randint r a b = Py.Ok n ∧ a <= n <= b.
Proof.
  intros Hab. unfold Random.randint. rewrite bool_decide_eq_false_2 by lia.
  eexists; split; [done|].
  pose proof (Z.mod_pos_bound r (b - a + 1)). lia.
Qed.

(** Every integer of the range is the outcome of some draw. *)
Lemma randint_onto (a b n : Z) :
  a <= n <= b → Random.randint (n - a) a b = Py.Ok n.
Proof.
  intros Hn. unfold Random.randint. rewrite bool_decide_eq_false_2 by lia.
  rewrite Z.mod_small by lia. f_equal. lia.
Qed.

Lemma randint_empty (r a b : Z) : b < a → Random.randint r a b = Py.Raise Py.ValueError.
Proof. intros. unfold Random.randint. by rewrite bool_decide_eq_true_2. Qed.

(** ** The example bots *)

Section bots.
Implicit Types (self : PlayerId) (r round_num : Z) (hand : list Card)
  (current_trick : list Play) (previous_tricks : list (list Play))
  (bids tricks_won previous_bids : gmap PlayerId Z).

Lemma length_filter_type (t : CardType) hand :
  length (filter (λ c, card_type c = t) hand) = count_type t hand.
Proof.
  induction hand as [|c hand IH]; [done|].
  rewrite filter_cons. simpl. case_decide.
  - rewrite bool_decide_eq_true_2 by done. simpl. by rewrite IH.
  - rewrite bool_decide_eq_false_2 by done. done.
Qed.

(** What a bot picks out of a sub-list of the hand is a card of the hand. *)
Lemma pick_from_filter (P : Card → Prop) `{∀ c, Decision (P c)} hand
    (pick : list Card → Py.result Card) :
  (∀ xs, xs ≠ [] → ∃ x, pick xs = Py.Ok x ∧ x ∈ xs) →
  filter P hand ≠ [] →
  ∃ c, pick (filter P hand) = Py.Ok c ∧ c ∈ hand.
Proof.
  intros Hpick Hne. destruct (Hpick _ Hne) as (c & -> & Hc).
  exists c. split; [done|]. by apply list_elem_of_filter in Hc as [_ ?].
Qed.

Lemma filter_nil_of_nil (P : Card → Prop) `{∀ c, Decision (P c)} : filter P (@nil Card) = [].
Proof. done. Qed.

Lemma dummy_play_card_elem self r hand ct pt bids tw round_num :
  hand ≠ [] → ∃ c, DummyPlayer.play_card self r hand ct pt bids tw round_num = Py.Ok c ∧ c ∈ hand.
Proof. apply choice_elem. Qed.

Lemma random_play_card_elem self r hand ct pt bids tw round_num :
  hand ≠ [] → ∃ c, RandomBot.play_card self r hand ct pt bids tw round_num = Py.Ok c ∧ c ∈ hand.
Proof. apply choice_elem. Qed.

Lemma conservative_play_card_elem self r hand ct pt bids tw round_num :
  hand ≠ [] →
  ∃ c, ConservativeBot.play_card self r hand ct pt bids tw round_num = Py.Ok c ∧ c ∈ hand.
Proof.
  intros Hne. unfold ConservativeBot.play_card.
  destruct (filter (λ c, card_type c = ESCAPE) hand) as [|e es] eqn:Ee.
  - destruct (filter (λ c, card_type c = NUMBER) hand) as [|n ns] eqn:En.
    + by apply choice_elem.
    + rewrite <- En. apply (pick_from_filter _ _ (Py.min_by value)); [apply min_by_elem | by rewrite En].
  - rewrite <- Ee. apply (pick_from_filter _ _ Py.first); [apply first_elem | by rewrite Ee].
Qed.

Lemma aggressive_play_card_elem self r hand ct pt bids tw round_num :
  hand ≠ [] →
  ∃ c, AggressiveBot.play_card self r hand ct pt bids tw round_num = Py.Ok c ∧ c ∈ hand.
Proof.
  intros Hne. unfold AggressiveBot.play_card.
  destruct (bool_decide _).
  - destruct (filter (λ c, card_type c ∈ [SKULL_KING; PIRATE; MERMAID]) hand)
      as [|s ss] eqn:Es.
    + destruct (filter (λ c, card_type c = NUMBER) hand) as [|n ns] eqn:En.
      * by apply choice_elem.
      * rewrite <- En. apply (pick_from_filter _ _ (Py.max_by value)); [apply max_by_elem | by rewrite En].
    + rewrite <- Es.
      set (specials := filter (λ c, card_type c ∈ [SKULL_KING; PIRATE; MERMAID]) hand).
      assert (∀ c, c ∈ specials → c ∈ hand) as Hsub
        by (intros c Hc; by apply list_elem_of_filter in Hc as [_ ?]).
      destruct (decide (Exists (λ c, card_type c = SKULL_KING) specials)) as [Hk|Hk].
      { rewrite bool_decide_eq_true_2 by done.
        destruct (next_where_elem _ _ Hk) as (c & ? & ? & _). eauto. }
      rewrite bool_decide_eq_false_2 by done.
      destruct (decide (Exists (λ c, card_type c = PIRATE) specials)) as [Hp|Hp].
      { rewrite bool_decide_eq_true_2 by done.
        destruct (next_where_elem _ _ Hp) as (c & ? & ? & _). eauto. }
      rewrite bool_decide_eq_false_2 by done.
      destruct (first_elem specials) as (c & ? & ?); [by subst specials; rewrite Es | eauto].
  - destruct (filter (λ c, card_type c = ESCAPE) hand) as [|e es] eqn:Ee.
    + destruct (filter (λ c, card_type c = NUMBER) hand) as [|n ns] eqn:En.
      * by apply choice_elem.
      * rewrite <- En. apply (pick_from_filter _ _ (Py.min_by value)); [apply min_by_elem | by rewrite En].
    + rewrite <- Ee. apply (pick_from_filter _ _ Py.first); [apply first_elem | by rewrite Ee].
Qed.

Lemma aggressive_play_card_empty self r ct pt bids tw round_num :
  AggressiveBot.play_card self r [] ct pt bids tw round_num = Py.Raise Py.IndexError.
Proof. unfold AggressiveBot.play_card. by destruct (bool_decide _). Qed.

(** C8: every bot's [play_card] returns a card of the hand when the hand is
    not empty, and raises (the [IndexError] of [random.choice]) when the
    hand is empty: a non-empty hand is the precondition of the call. *)
Theorem play_card_returns_card_of_hand self r hand ct pt bids tw round_num :
  let results :=
    [ DummyPlayer.play_card self r hand ct pt bids tw round_num;
      RandomBot.play_card self r hand ct pt bids tw round_num;
      ConservativeBot.play_card self r hand ct pt bids tw round_num;
      AggressiveBot.play_card self r hand ct pt bids tw round_num ] in
  (hand ≠ [] → Forall (λ res, ∃ c, res = Py.Ok c ∧ c ∈ hand) results)
  ∧ (hand = [] → Forall (λ res, res = Py.Raise Py.IndexError) results).
Proof.
  split.
  - intros Hne. repeat apply Forall_cons_2; [ | | | | apply Forall_nil_2 ].
    + by apply dummy_play_card_elem.
    + by apply random_play_card_elem.
    + by apply conservative_play_card_elem.
    + by apply aggressive_play_card_elem.
  - intros ->. repeat apply Forall_cons_2; [ done | done | done | | apply Forall_nil_2 ].
    apply aggressive_play_card_empty.
Qed.

Lemma play_card_returns_card_of_hand_witness :
  let hand := [number Yellow 3; special PIRATE; special ESCAPE] in
  Forall (λ res, ∃ c, res = Py.Ok c ∧ c ∈ hand)
    [ DummyPlayer.play_card 2 7 hand [(0%nat, number Green 4)] [] {[2%nat := 1]} ∅ 3;
      RandomBot.play_card 2 7 hand [(0%nat, number Green 4)] [] {[2%nat := 1]} ∅ 3;
      ConservativeBot.play_card 2 7 hand [(0%nat, number Green 4)] [] {[2%nat := 1]} ∅ 3;
      AggressiveBot.play_card 2 7 hand [(0%nat, number Green 4)] [] {[2%nat := 1]} ∅ 3 ]
  ∧ Forall (λ res, res = Py.Raise Py.IndexError)
    [ DummyPlayer.play_card 2 7 [] [] [] ∅ ∅ 3;
      RandomBot.play_card 2 7 [] [] [] ∅ ∅ 3;
      ConservativeBot.play_card 2 7 [] [] [] ∅ ∅ 3;
      AggressiveBot.play_card 2 7 [] [] [] ∅ ∅ 3 ].
Proof.
  split.
  - apply (play_card_returns_card_of_hand 2 7
             [number Yellow 3; special PIRATE; special ESCAPE]
             [(0%nat, number Green 4)] [] {[2%nat := 1]} ∅ 3).
    discriminate.
  - apply (play_card_returns_card_of_hand 2 7 [] [] [] ∅ ∅ 3).
    reflexivity.
Defined.

(** *** Bids *)

Lemma random_make_bid_range r hand round_num previous_bids :
  0 <= round_num →
  ∃ b, RandomBot.make_bid r hand round_num previous_bids = Py.Ok b ∧ 0 <= b <= round_num.
Proof. apply randint_range. Qed.

Lemma conservative_make_bid_eq r hand round_num previous_bids :
  ConservativeBot.make_bid r hand round_num previous_bids =
  Py.Ok (if bool_decide (Z.of_nat (count_type ESCAPE hand) >= round_num)
         then 0 else Z.min 1 round_num).
Proof.
  unfold ConservativeBot.make_bid.
  rewrite sum_ones, length_filter_type. by destruct (bool_decide _).
Qed.

Lemma conservative_make_bid_range r hand round_num previous_bids :
  0 <= round_num →
  ∃ b, ConservativeBot.make_bid r hand round_num previous_bids = Py.Ok b
       ∧ 0 <= b <= round_num.
Proof.
  intros Hr. rewrite conservative_make_bid_eq. eexists; split; [done|].
  case_bool_decide; lia.
Qed.

Lemma aggressive_make_bid_eq r hand round_num previous_bids :
  ∃ strong : nat,
    AggressiveBot.make_bid r hand round_num previous_bids =
    Py.Ok (Z.max 1 (Z.min (Z.of_nat strong) round_num)).
Proof. unfold AggressiveBot.make_bid. rewrite sum_ones. eauto. Qed.

Lemma aggressive_make_bid_range r hand round_num previous_bids :
  1 <= round_num →
  ∃ b, AggressiveBot.make_bid r hand round_num previous_bids = Py.Ok b
       ∧ 1 <= b <= round_num.
Proof.
  intros Hr. destruct (aggressive_make_bid_eq r hand round_num previous_bids) as [n ->].
  eexists; split; [done|]. lia.
Qed.

(** C3, as the code has it: [RandomBot] and [ConservativeBot] bid within
    [0, round_num] for every [round_num >= 0]; [AggressiveBot] bids within
    [0, round_num] (in fact within [1, round_num]) for every
    [round_num >= 1]. *)
Theorem make_bid_within_round r hand round_num previous_bids :
  (0 <= round_num →
     ∃ b, RandomBot.make_bid r hand round_num previous_bids = Py.Ok b
          ∧ 0 <= b <= round_num)
  ∧ (0 <= round_num →
     ∃ b, ConservativeBot.make_bid r hand round_num previous_bids = Py.Ok b
          ∧ 0 <= b <= round_num)
  ∧ (1 <= round_num →
     ∃ b, AggressiveBot.make_bid r hand round_num previous_bids = Py.Ok b
          ∧ 0 <= b <= round_num).
Proof.
  split; [|split].
  - apply random_make_bid_range.
  - apply conservative_make_bid_range.
  - intros Hr. destruct (aggressive_make_bid_range r hand round_num previous_bids Hr)
      as (b & ? & ?). exists b. split; [done | lia].
Qed.

Lemma make_bid_within_round_witness :
  let hand := [special PIRATE; number Black 12; special ESCAPE] in
  (∃ b, RandomBot.make_bid 11 hand 3 ∅ = Py.Ok b ∧ 0 <= b <= 3)
  ∧ (∃ b, ConservativeBot.make_bid 11 hand 3 ∅ = Py.Ok b ∧ 0 <= b <= 3)
  ∧ (∃ b, AggressiveBot.make_bid 11 hand 3 ∅ = Py.Ok b ∧ 0 <= b <= 3).
Proof.
  destruct (make_bid_within_round 11 [special PIRATE; number Black 12; special ESCAPE] 3 ∅)
    as (Hr & Hc & Ha).
  split; [|split]; [apply Hr | apply Hc | apply Ha]; lia.
Defined.

(** C3 as stated fails: in round 0 [AggressiveBot] bids 1. *)
Lemma make_bid_round_zero_counterexample :
  0 <= 0
  ∧ AggressiveBot.make_bid 0 [] 0 ∅ = Py.Ok 1
  ∧ ¬ (∃ b, AggressiveBot.make_bid 0 [] 0 ∅ = Py.Ok b ∧ 0 <= b <= 0).
Proof.
  split; [lia|]. split; [reflexivity|].
  intros (b & Hb & Hrange). vm_compute in Hb. injection Hb as <-. lia.
Qed.

(** C9: [AggressiveBot] never bids less than 1; in round 0 its bid is above
    the round number. *)
Theorem aggressive_bid_at_least_one r hand round_num previous_bids :
  (∃ b, AggressiveBot.make_bid r hand round_num previous_bids = Py.Ok b ∧ 1 <= b)
  ∧ (∃ b, AggressiveBot.make_bid r hand 0 previous_bids = Py.Ok b ∧ 0 < b).
Proof.
  split.
  - destruct (aggressive_make_bid_eq r hand round_num previous_bids) as [n ->].
    eexists; split; [done | lia].
  - destruct (aggressive_make_bid_eq r hand 0 previous_bids) as [n ->].
    eexists; split; [done | lia].
Qed.

(** C10: [ConservativeBot.make_bid] depends on the hand and the round
    number only: it is 0 when the hand holds at least [round_num] escape
    cards and [min(1, round_num)] otherwise; it never exceeds 1. *)
Theorem conservative_bid_deterministic r hand round_num previous_bids :
  let escapes := Z.of_nat (count_type ESCAPE hand) in
  ∃ b, ConservativeBot.make_bid r hand round_num previous_bids = Py.Ok b
       ∧ b = (if bool_decide (escapes >= round_num) then 0 else Z.min 1 round_num)
       ∧ b <= 1
       ∧ ∀ r' previous_bids',
           ConservativeBot.make_bid r' hand round_num previous_bids' = Py.Ok b.
Proof.
  intros escapes. eexists. split; [apply conservative_make_bid_eq|].
  split; [done|]. split.
  - case_bool_decide; lia.
  - intros r' pb'. apply conservative_make_bid_eq.
Qed.
End bots.

(** ** Trick resolution *)

Section ranking.
Import GameEngine.
Implicit Types (led : option Suit) (best : nat * Card) (rest : list Card)
  (trick pre post : list Play) (c : Card) (t : CardType).



Lemma type_beats_irrefl t : type_beats t t = false.
Proof. by destruct t. Qed.

Lemma type_beats_asym t u : type_beats t u = true → type_beats u t = false.
Proof. by destruct t, u. Qed.








End ranking.

(** ** Scoring *)

Section scoring.
Import GameEngine.

(** The four cases of the base rule. *)
Lemma round_score_cases round_num bid won bonus :
  (bid = 0 → won = 0 → round_score round_num bid won bonus = Some (20 * round_num))
  ∧ (bid = 0 → won > 0 →
     round_score round_num bid won bonus = Some (-10 * round_num * won))
  ∧ (bid > 0 → won = bid → round_score round_num bid won bonus = Some (20 * bid + bonus))
  ∧ (bid > 0 → won ≠ bid →
     round_score round_num bid won bonus = Some (-10 * Z.abs (bid - won))).
Proof.
  unfold round_score. repeat split; intros; repeat case_bool_decide; (done || lia).
Qed.

Lemma round_score_total round_num bid won bonus :
  0 <= bid → 0 <= won → is_Some (round_score round_num bid won bonus).
Proof.
  intros Hb Hw. unfold round_score. repeat case_bool_decide; (by eexists) || lia.
Qed.

Lemma score_all_lookup g ps m p :
  score_all g ps = Py.Ok m → p ∈ ps → m !! pid p = score_of g p.
Proof.
  revert m. induction ps as [|q ps IH]; intros m Hm Hp.
  - by apply elem_of_nil in Hp.
  - simpl in Hm.
    destruct (score_of g q) as [x|] eqn:Hq; [|done].
    destruct (score_all g ps) as [m'|] eqn:Hps; [|done].
    injection Hm as <-.
    destruct (decide (pid q = pid p)) as [Heq|Hne].
    + rewrite Heq, lookup_insert_eq. rewrite <- Hq. unfold score_of. by rewrite Heq.
    + rewrite lookup_insert_ne by done. apply elem_of_cons in Hp as [->|Hp]; [done|].
      by apply IH.
Qed.

Lemma score_all_total g ps :
  (∀ q, q ∈ ps → is_Some (score_of g q)) → ∃ m, score_all g ps = Py.Ok m.
Proof.
  induction ps as [|q ps IH]; intros Hall; simpl; [by eexists|].
  destruct (Hall q) as [x ->]; [apply elem_of_cons; by left|].
  destruct IH as [m ->]; [|by eexists].
  intros q' Hq'. apply Hall. apply elem_of_cons. by right.
Qed.

(** C7: the score of a player for a round, by the four cases of the base
    rule: a kept zero bid earns 20 times the round number, a missed zero bid
    costs 10 times the round number per trick taken, a kept bid earns 20 per
    trick bid plus the bonuses, and a missed bid costs 10 per trick of
    difference. *)
Theorem round_score_by_bid (g : Game) (p : Player) :
  p ∈ players g →
  (∀ q, q ∈ players g →
     0 <= Py.get (bids (state g)) (pid q) 0
     ∧ 0 <= Py.get (tricks_won (state g)) (pid q) 0) →
  let round_num := current_round g in
  let bid := Py.get (bids (state g)) (pid p) 0 in
  let won := Py.get (tricks_won (state g)) (pid p) 0 in
  let bonus := bonus_of (bonus_table g) (tricks (state g)) (pid p) in
  ∃ m g' score,
    calculate_scores g = Py.Ok (m, g') ∧ m !! pid p = Some score
    ∧ (bid = 0 → won = 0 → score = 20 * round_num)
    ∧ (bid = 0 → won > 0 → score = -10 * round_num * won)
    ∧ (bid > 0 → won = bid → score = 20 * bid + bonus)
    ∧ (bid > 0 → won ≠ bid → score = -10 * Z.abs (bid - won)).
Proof.
  intros Hp Hnonneg round_num bid won bonus.
  destruct (score_all_total g (players g)) as [m Hm].
  { intros q Hq. destruct (Hnonneg q Hq). by apply round_score_total. }
  pose proof (score_all_lookup g (players g) m p Hm Hp) as Hlook.
  destruct (round_score_total round_num bid won bonus) as [score Hscore];
    [apply (Hnonneg p Hp) | apply (Hnonneg p Hp) |].
  unfold calculate_scores. rewrite Hm. simpl.
  eexists m, _, score. split; [done|]. split; [by rewrite Hlook|].
  destruct (round_score_cases round_num bid won bonus) as (H1 & H2 & H3 & H4).
  repeat split; intros.
  - rewrite H1 in Hscore by done. by injection Hscore.
  - rewrite H2 in Hscore by done. by injection Hscore.
  - rewrite H3 in Hscore by done. by injection Hscore.
  - rewrite H4 in Hscore by done. by injection Hscore.
Qed.

(** The third player of the sample round bid 2 and took 2 tricks, for 40
    points; the first kept a zero bid in round 3, for 60. *)
Lemma round_score_by_bid_witness :
  ∃ m g' score,
    calculate_scores scored_round = Py.Ok (m, g') ∧ m !! 2%nat = Some score ∧ score = 40.
Proof.
  destruct (round_score_by_bid scored_round (new_AggressiveBot 2 "AggressiveBot"))
    as (m & g' & score & Hcalc & Hlook & _ & _ & Hkept & _).
  - unfold scored_round, Main.create_competition_bots. simpl.
    apply elem_of_cons. right. apply elem_of_cons. right. apply elem_of_cons. by left.
  - intros q Hq. unfold scored_round, Main.create_competition_bots in Hq. simpl in Hq.
    repeat (apply elem_of_cons in Hq as [->|Hq]; [by vm_compute|]).
    by apply elem_of_nil in Hq.
  - exists m, g', score. split; [done|]. split; [done|].
    rewrite Hkept; [reflexivity | reflexivity | reflexivity].
Defined.

Example scenario_scores :
  round_score 1 0 0 0 = Some 20 ∧ round_score 3 2 2 0 = Some 40
  ∧ round_score 2 1 0 0 = Some (-10).
Proof. done. Qed.
End scoring.

(** ** The runner: one turn *)

Section turn.
Import Main.
Context {G : Type} `{!Engine G}.
Variables (tape : nat → Z) (bots : list Player).
Implicit Types (game : G) (w : world) (round_num : Z) (card : Card).

(** The card handed to the engine is the returned card when that card is
    legal, and the first legal card otherwise. *)
Lemma checked_card_legal card first_legal others hand :
  let legal_cards := first_legal :: others in
  checked_card card legal_cards hand =
    Py.Ok (if bool_decide (card ∈ legal_cards) then card else first_legal)
  ∧ (if bool_decide (card ∈ legal_cards) then card else first_legal) ∈ legal_cards.
Proof.
  intros legal_cards. unfold checked_card.
  destruct (decide (card ∈ legal_cards)) as [Hin|Hout].
  - rewrite (bool_decide_eq_true_2 _ Hin).
    rewrite bool_decide_eq_false_2 by (intros Hn; by apply Hn). done.
  - rewrite (bool_decide_eq_false_2 _ Hout), (bool_decide_eq_true_2 _ Hout).
    split; [done|]. apply elem_of_cons. by left.
Qed.

(** Without a legal card the first card of the hand is taken. *)
Lemma checked_card_no_legal card hand :
  checked_card card [] hand = Py.first hand.
Proof.
  unfold checked_card. rewrite bool_decide_eq_true_2; [done|]. apply not_elem_of_nil.
Qed.

(** C1: the card that a player returns is played unchanged when it is among
    the legal cards; when it is not, the first legal card is played in its
    place, so that the engine is never handed the illegal card. *)
Theorem returned_card_checked round_num game w next_player hand card
    first_legal others :
  let st := game_state game in
  let cards_played := default [] (current_trick st) in
  Py.next_where (λ p, pid p ∉ cards_played.*1) bots = Py.Ok next_player →
  Py.item (hands st) (pid next_player) = Py.Ok hand →
  play_card next_player (tape (draws w)) hand cards_played (tricks st)
            (bids st) (tricks_won st) round_num = Py.Ok card →
  state_get_legal_cards game (pid next_player) = first_legal :: others →
  let legal_cards := first_legal :: others in
  let played := if bool_decide (card ∈ legal_cards) then card else first_legal in
  let w1 := mkWorld (log w ++ [Do (PlayCard (pid next_player) played)]) (S (draws w)) in
  played ∈ legal_cards
  ∧ play_turn tape bots round_num game w =
      match game_play_card (pid next_player) played game with
      | Py.Ok game' => (w1, Returned (Some game'))
      | Py.Raise e => (mkWorld (log w1 ++ [Print (Error e)]) (draws w1), Returned None)
      end.
Proof.
  intros st cards_played Hnext Hhand Hcard Hlegal legal_cards played w1.
  destruct (checked_card_legal card first_legal others hand) as [Hchecked Hin].
  split; [done|].
  cbv [play_turn mbind run_bind bind lift]. fold st. fold cards_played.
  rewrite Hnext, Hhand.
  cbv [try_except ask_and_play draw engine emit print mbind run_bind bind lift mret run_ret ret].
  cbn [log draws]. fold st. rewrite Hcard, Hlegal, Hchecked.
  subst played w1. by destruct (game_play_card _ _ _).
Qed.

(** No exception raised inside the [try] block escapes the turn. *)
Lemma turn_never_crashes_in_try round_num game w next_player hand :
  let st := game_state game in
  let cards_played := default [] (current_trick st) in
  Py.next_where (λ p, pid p ∉ cards_played.*1) bots = Py.Ok next_player →
  Py.item (hands st) (pid next_player) = Py.Ok hand →
  ∃ w' o, play_turn tape bots round_num game w = (w', Returned o).
Proof.
  intros st cards_played Hnext Hhand.
  cbv [play_turn mbind run_bind bind lift]. fold st. fold cards_played.
  rewrite Hnext, Hhand.
  cbv [try_except ask_and_play draw engine emit print mbind run_bind bind lift mret run_ret ret].
  cbn [log draws]. fold st.
  destruct (play_card next_player _ _ _ _ _ _ _) as [card|e]; [|by eauto].
  destruct (checked_card _ _ _) as [card'|e]; [|by eauto].
  destruct (game_play_card _ _ _); by eauto.
Qed.



End turn.

Section turn_samples.
Import Main.

(** In the sample trick the [ConservativeBot] returns its lowest card, the
    Green 2; Yellow was led and the bot holds the Yellow 9, which is played
    in its place. *)
Lemma returned_card_checked_witness :
  number Yellow 9 ∈ [number Yellow 9]
  ∧ play_turn (Engine0 := sample_engine) sample_draws create_competition_bots 2
      sample_trick start =
    match game_play_card (Engine := sample_engine) 1%nat (number Yellow 9) sample_trick with
    | Py.Ok game' =>
        (mkWorld [Do (PlayCard 1%nat (number Yellow 9))] 1, Returned (Some game'))
    | Py.Raise e =>
        (mkWorld [Do (PlayCard 1%nat (number Yellow 9)); Print (Error e)] 1, Returned None)
    end.
Proof.
  exact (returned_card_checked (Engine0 := sample_engine) sample_draws
           create_competition_bots 2 sample_trick start
           (new_ConservativeBot 1 "ConservativeBot")
           [number Green 2; number Yellow 9] (number Green 2) (number Yellow 9) []
           eq_refl eq_refl eq_refl eq_refl).
Defined.

Example legal_card_played_unchanged :
  (play_turn (Engine0 := sample_engine) sample_draws create_competition_bots 2
     (GameEngine.with_state sample_trick
        (mkRoundState {[1%nat := [number Yellow 3; number Yellow 9]]}
           ∅ [] (Some [(0%nat, number Yellow 5)]) ∅)) start).1
  = mkWorld [Do (PlayCard 1%nat (number Yellow 3))] 1.
Proof. vm_compute. reflexivity. Qed.


End turn_samples.

(** ** The runner: what a run adds to the log *)

Section log.
Import Main.
Context {A B : Type} (P : event → Prop).

Lemma adds_only_ret (a : A) : adds_only P (ret a).
Proof. intros w. exists []. by rewrite app_nil_r. Qed.

Lemma adds_only_lift (m : Py.result A) : adds_only P (lift m).
Proof. intros w. exists []. rewrite app_nil_r. by destruct m. Qed.

Lemma adds_only_out_of_fuel : adds_only P (@out_of_fuel A).
Proof. intros w. exists []. by rewrite app_nil_r. Qed.

Lemma adds_only_emit e : P e → adds_only P (emit e).
Proof. intros He w. exists [e]. split; [done|]. by apply Forall_singleton. Qed.

Lemma adds_only_bind (m : run A) (k : A → run B) :
  adds_only P m → (∀ a, adds_only P (k a)) → adds_only P (bind m k).
Proof.
  intros Hm Hk w. unfold bind. destruct (Hm w) as (l & Hl & HP).
  destruct (m w) as [w' [a|e|]]; simpl in Hl.
  - destruct (Hk a w') as (l' & Hl' & HP'). exists (l ++ l').
    rewrite Hl', Hl, app_assoc. split; [done|]. by apply Forall_app.
  - by exists l.
  - by exists l.
Qed.

Lemma adds_only_try (body : run A) (handler : Py.exc → run A) :
  adds_only P body → (∀ e, adds_only P (handler e)) →
  adds_only P (try_except body handler).
Proof.
  intros Hm Hk w. unfold try_except. destruct (Hm w) as (l & Hl & HP).
  destruct (body w) as [w' [a|e|]]; simpl in Hl.
  - by exists l.
  - destruct (Hk e w') as (l' & Hl' & HP'). exists (l ++ l').
    rewrite Hl', Hl, app_assoc. split; [done|]. by apply Forall_app.
  - by exists l.
Qed.
End log.

Section log_loops.
Import Main.
Context (P : event → Prop).

Lemma adds_only_mbind {A B} (m : run A) (k : A → run B) :
  adds_only P m → (∀ a, adds_only P (k a)) → adds_only P (m ≫= k).
Proof. apply adds_only_bind. Qed.

Lemma adds_only_mret {A} (a : A) : adds_only P (mret a).
Proof. apply adds_only_ret. Qed.

Lemma adds_only_print l : P (Print l) → adds_only P (print l).
Proof. apply adds_only_emit. Qed.

Lemma adds_only_engine {A} c (m : Py.result A) : P (Do c) → adds_only P (engine c m).
Proof.
  intros Hc. apply adds_only_bind; [by apply adds_only_emit|].
  intros _. apply adds_only_lift.
Qed.

Lemma adds_only_for_each {X A} (xs : list X) (body : X → A → run A) (a : A) :
  (∀ x a, adds_only P (body x a)) → adds_only P (for_each xs body a).
Proof.
  intros Hbody. revert a. induction xs as [|x xs IH]; intros a; simpl.
  - apply adds_only_ret.
  - apply adds_only_bind; [apply Hbody | apply IH].
Qed.

Lemma adds_only_draw tape : adds_only P (draw tape).
Proof. intros w. exists []. by rewrite app_nil_r. Qed.
End log_loops.

(** One step of the proof that a piece of the runner only adds events
    satisfying the predicate at hand. *)
Ltac adds_only_step :=
  first
    [ simple apply adds_only_mbind; [|intros ?]
    | simple apply adds_only_bind; [|intros ?]
    | simple apply adds_only_mret | simple apply adds_only_ret
    | simple apply adds_only_lift
    | simple apply adds_only_out_of_fuel | simple apply adds_only_draw
    | simple apply adds_only_print
    | simple apply adds_only_engine
    | simple apply adds_only_emit
    | simple apply adds_only_try; [|intros ?]
    | simple apply adds_only_for_each; intros ? ?
    | assumption
    | match goal with
      | |- Main.adds_only _ (match ?x with _ => _ end) => destruct x
      | |- Main.adds_only _ (let '(_, _) := ?x in _) => destruct x
      end ].

Section runs.
Import Main.
Context {G : Type} `{!Engine G}.
Variables (tape : nat → Z) (bots : list Player) (num_rounds : Z).

(** Every event of the runner but the construction of a game is harmless. *)
Lemma print_builds_only bs n l : builds_only bs n (Print l).
Proof. by intros ? ?. Qed.

Lemma call_builds_only bs n c :
  (∀ bs' n', c ≠ SkullKingGame bs' n') → builds_only bs n (Do c).
Proof. intros Hc bs' n' [= ->]. by destruct (Hc bs' n'). Qed.

Lemma construction_builds_only bs n : builds_only bs n (Do (SkullKingGame bs n)).
Proof. by intros ? ? [= -> ->]. Qed.

#[local] Hint Resolve print_builds_only construction_builds_only : core.
#[local] Hint Extern 1 (builds_only _ _ (Do _)) => (apply call_builds_only; done) : core.

#[local] Abbreviation harmless := (adds_only (builds_only bots num_rounds)).







Lemma gui_adds : harmless (run_competition_with_gui_on (G := G) bots num_rounds).
Proof.
  unfold run_competition_with_gui_on.
  repeat first [ adds_only_step; auto ].
Qed.
End runs.

(** ** The runner: the games that the entry points construct *)

Section built.
Import Main.



Lemma print_builds_nothing l : builds_nothing (Print l).
Proof. by intros ? ?. Qed.

Lemma call_builds_nothing c :
  (∀ bs n, c ≠ SkullKingGame bs n) → builds_nothing (Do c).
Proof. intros Hc bs n [= ->]. by destruct (Hc bs n). Qed.

(** Sequencing after a statement that cannot fail. *)
Lemma print_then {A} l (k : run A) w :
  (print l;; k) w = k (mkWorld (log w ++ [Print l]) (draws w)).
Proof. done. Qed.




Lemma engine_ok_then {A B} c (a : A) (k : A → run B) w :
  (engine c (Py.Ok a) ≫= k) w = k a (mkWorld (log w ++ [Do c]) (draws w)).
Proof. done. Qed.
End built.

Section entry.
Import Main.
Context {G : Type} `{!Engine G}.
Variables (tape : nat → Z) (bots : list Player) (fuel : nat) (num_rounds num_games : Z).

#[local] Hint Resolve print_builds_nothing print_builds_only construction_builds_only : core.
#[local] Hint Extern 1 (builds_only _ _ (Do _)) => (apply call_builds_only; done) : core.
#[local] Hint Extern 1 (builds_nothing (Do _)) => (apply call_builds_nothing; done) : core.




End entry.

Section entry_samples.
Import Main.


End entry_samples.

(** ** The runner: the final report *)

Section ranking_order.
Import Main.
Context {A : Type}.
Implicit Types (x y : A * Z) (l : list (A * Z)).

Lemma insert_desc_perm x l : insert_desc x l ≡ₚ x :: l.
Proof.
  induction l as [|y l IH]; simpl; [done|].
  destruct (bool_decide _); [done|]. by rewrite IH, Permutation_swap.
Qed.

Lemma sorted_desc_perm l : sorted_desc l ≡ₚ l.
Proof.
  induction l as [|x l IH]; simpl; [done|].
  by rewrite insert_desc_perm, IH.
Qed.

Lemma insert_desc_sorted x l :
  StronglySorted (λ a b, b.2 <= a.2) l →
  StronglySorted (λ a b, b.2 <= a.2) (insert_desc x l).
Proof.
  induction 1 as [|y l Hl IH Hy]; simpl.
  - by repeat constructor.
  - case_bool_decide as Hxy.
    + constructor; [by constructor|]. constructor; [done|].
      eapply Forall_impl; [exact Hy|]. simpl. intros z Hz. lia.
    + constructor; [done|].
      eapply Permutation_Forall; [symmetry; apply insert_desc_perm|].
      constructor; [simpl; lia | done].
Qed.

Lemma sorted_desc_sorted l : StronglySorted (λ a b, b.2 <= a.2) (sorted_desc l).
Proof.
  induction l as [|x l IH]; simpl; [constructor | by apply insert_desc_sorted].
Qed.

(** The sort is stable: the items with a given score keep their order. *)
Lemma insert_desc_stable (s : Z) x l :
  filter (λ y, y.2 = s) (insert_desc x l) = filter (λ y, y.2 = s) (x :: l).
Proof.
  induction l as [|y l IH]; simpl; [done|].
  case_bool_decide as Hxy; [done|].
  rewrite filter_cons, IH, !filter_cons.
  destruct (decide (y.2 = s)) as [Hy|Hy], (decide (x.2 = s)) as [Hx|Hx]; try done.
  lia.
Qed.

Lemma sorted_desc_stable (s : Z) l :
  filter (λ y, y.2 = s) (sorted_desc l) = filter (λ y, y.2 = s) l.
Proof.
  induction l as [|x l IH]; simpl; [done|].
  by rewrite insert_desc_stable, !filter_cons, IH.
Qed.
End ranking_order.


Section report.
Import Main.




End report.

Section final_report.
Import Main.
Context {G : Type} `{!Engine G}.
Variables (tape : nat → Z) (bots : list Player) (fuel : nat) (num_rounds num_games : Z).

Lemma bind_returned {A B} (m : run A) (k : A → run B) w w' b :
  (m ≫= k) w = (w', Returned b) →
  ∃ w1 a, m w = (w1, Returned a) ∧ k a w1 = (w', Returned b).
Proof.
  cbv [mbind run_bind bind]. destruct (m w) as [w1 [a|e|]]; [|done|done].
  intros Hk. by exists w1, a.
Qed.


Lemma lift_returned {A} (m : Py.result A) w w' a :
  lift m w = (w', Returned a) → m = Py.Ok a ∧ w' = w.
Proof. unfold lift. destruct m; [|done]. by intros [= <- <-]. Qed.


Lemma for_each_print (ls : list line) w :
  for_each ls (λ l _, print l) () w
  = (mkWorld (log w ++ (Print <$> ls)) (draws w), Returned ()).
Proof.
  revert w. induction ls as [|l ls IH]; intros w; simpl.
  - rewrite app_nil_r. by destruct w.
  - unfold bind. simpl. rewrite IH. simpl. by rewrite <- app_assoc.
Qed.

Lemma printed_prints (ls : list line) : omap line_of (Print <$> ls) = ls.
Proof. induction ls as [|l ls IH]; [done|]. simpl. f_equal. exact IH. Qed.



End final_report.

Section report_samples.
Import Main.


End report_samples.

(** ** More on the example bots *)

Section lists.
Context {A : Type}.
Implicit Types (xs pre post : list A) (key : A → Z).

(** The head of a filtered list is the first element of the list that
    passes the filter. *)
Lemma filter_head (P : A → Prop) `{∀ x, Decision (P x)} xs x rest :
  filter P xs = x :: rest →
  ∃ pre post, xs = pre ++ x :: post ∧ Forall (λ y, ¬ P y) pre ∧ P x
              ∧ filter P post = rest.
Proof.
  induction xs as [|y xs IH]; [done|].
  rewrite filter_cons. destruct (decide (P y)) as [Hy|Hy].
  - intros [= -> <-]. exists [], xs. by repeat split.
  - intros Hf. destruct (IH Hf) as (pre & post & -> & Hpre & Hx & Hpost).
    exists (y :: pre), post. repeat split; [|done|done]. by constructor.
Qed.

Lemma filter_nil_none (P : A → Prop) `{∀ x, Decision (P x)} xs :
  filter P xs = [] → Forall (λ y, ¬ P y) xs.
Proof.
  induction xs as [|y xs IH]; [constructor|].
  rewrite filter_cons. destruct (decide (P y)); [done|]. intros Hf.
  constructor; [done | by apply IH].
Qed.

(** [min] returns an element of least key, the first of them. *)
Lemma min_from_least key best xs :
  let m := Py.min_from key best xs in
  key m <= key best ∧ Forall (λ y, key m <= key y) xs.
Proof.
  revert best. induction xs as [|x xs IH]; intros best; simpl; [split; [lia|constructor]|].
  destruct (IH (if bool_decide (key x < key best) then x else best)) as [Hb Hall].
  case_bool_decide; (split; [lia | constructor; [lia | done]]).
Qed.

Lemma min_by_least key xs c :
  Py.min_by key xs = Py.Ok c → c ∈ xs ∧ Forall (λ y, key c <= key y) xs.
Proof.
  destruct xs as [|x xs]; [done|]. intros [= <-].
  split; [apply min_from_elem|].
  destruct (min_from_least key x xs) as [Hb Hall]. by constructor.
Qed.

(** [max] returns an element of greatest key. *)
Lemma max_from_greatest key best xs :
  let m := Py.max_from key best xs in
  key best <= key m ∧ Forall (λ y, key y <= key m) xs.
Proof.
  revert best. induction xs as [|x xs IH]; intros best; simpl; [split; [lia|constructor]|].
  destruct (IH (if bool_decide (key best < key x) then x else best)) as [Hb Hall].
  case_bool_decide; (split; [lia | constructor; [lia | done]]).
Qed.

Lemma max_by_greatest key xs c :
  Py.max_by key xs = Py.Ok c → c ∈ xs ∧ Forall (λ y, key y <= key c) xs.
Proof.
  destruct xs as [|x xs]; [done|]. intros [= <-].
  split; [apply max_from_elem|].
  destruct (max_from_greatest key x xs) as [Hb Hall]. by constructor.
Qed.

Lemma Forall_of_filter (P Q : A → Prop) `{∀ x, Decision (P x)} xs :
  Forall Q (filter P xs) → Forall (λ y, P y → Q y) xs.
Proof.
  intros Hall. apply Forall_forall. intros y Hy HP.
  eapply Forall_forall in Hall; [exact Hall|]. by apply list_elem_of_filter.
Qed.

(** Every element of a list is the outcome of [random.choice] for some draw. *)
Lemma choice_any xs x : x ∈ xs → ∃ r, Random.choice r xs = Py.Ok x.
Proof.
  intros Hx. apply list_elem_of_lookup in Hx as [i Hi].
  pose proof (lookup_lt_Some _ _ _ Hi) as Hlt.
  exists (Z.of_nat i). unfold Random.choice.
  rewrite Z.mod_small by lia. by rewrite Nat2Z.id, Hi.
Qed.
End lists.

Section more_bots.
Implicit Types (self : PlayerId) (r round_num : Z) (hand : list Card)
  (ct : list Play) (pt : list (list Play)) (bids tw previous_bids : gmap PlayerId Z).

(** [DummyPlayer] and [RandomBot] bid by [random.randint(0, round_num)]:
    within the round for a round number that is not negative, and with a
    [ValueError] for a negative one. *)
Theorem random_bids r hand round_num previous_bids :
  (0 <= round_num →
   ∃ b, DummyPlayer.make_bid r hand round_num previous_bids = Py.Ok b
        ∧ RandomBot.make_bid r hand round_num previous_bids = Py.Ok b
        ∧ 0 <= b <= round_num)
  ∧ (round_num < 0 →
     DummyPlayer.make_bid r hand round_num previous_bids = Py.Raise Py.ValueError
     ∧ RandomBot.make_bid r hand round_num previous_bids = Py.Raise Py.ValueError).
Proof.
  split.
  - intros Hr. destruct (randint_range r 0 round_num Hr) as (b & Hb & Hrange).
    exists b. split; [done|]. by split.
  - intros Hr. split; by apply randint_empty.
Qed.

Lemma random_bids_witness :
  (∃ b, DummyPlayer.make_bid 17 [] 4 ∅ = Py.Ok b ∧ RandomBot.make_bid 17 [] 4 ∅ = Py.Ok b
        ∧ 0 <= b <= 4)
  ∧ DummyPlayer.make_bid 17 [] (-1) ∅ = Py.Raise Py.ValueError
  ∧ RandomBot.make_bid 17 [] (-1) ∅ = Py.Raise Py.ValueError.
Proof.
  split.
  - apply (random_bids 17 [] 4 ∅). lia.
  - apply (random_bids 17 [] (-1) ∅). lia.
Defined.

(** [RandomBot] and [DummyPlayer] look at the hand only: whatever the trick,
    every card of the hand is the card returned for some draw. *)
Theorem random_play_any_card self hand ct pt bids tw round_num (c : Card) :
  c ∈ hand →
  ∃ r, RandomBot.play_card self r hand ct pt bids tw round_num = Py.Ok c
       ∧ DummyPlayer.play_card self r hand ct pt bids tw round_num = Py.Ok c.
Proof.
  intros Hc. destruct (choice_any hand c Hc) as [r Hr]. exists r. by split.
Qed.

Lemma random_play_any_card_witness :
  ∃ r, RandomBot.play_card 0 r [number Yellow 3; number Green 8]
         [(1%nat, number Yellow 5)] [] ∅ ∅ 2 = Py.Ok (number Green 8)
       ∧ DummyPlayer.play_card 0 r [number Yellow 3; number Green 8]
           [(1%nat, number Yellow 5)] [] ∅ ∅ 2 = Py.Ok (number Green 8).
Proof.
  apply (random_play_any_card 0 [number Yellow 3; number Green 8]
           [(1%nat, number Yellow 5)] [] ∅ ∅ 2 (number Green 8)).
  apply elem_of_cons. right. apply elem_of_cons. by left.
Defined.

(** What [ConservativeBot] plays, by the first case that applies: its
    first escape card; else a number card of least value; else any card. *)
Lemma conservative_play_cases self r hand ct pt bids tw round_num :
  (∀ e rest, filter (λ c, card_type c = ESCAPE) hand = e :: rest →
     ConservativeBot.play_card self r hand ct pt bids tw round_num = Py.Ok e)
  ∧ (filter (λ c, card_type c = ESCAPE) hand = [] →
     ∀ n rest, filter (λ c, card_type c = NUMBER) hand = n :: rest →
       ConservativeBot.play_card self r hand ct pt bids tw round_num
       = Py.min_by value (n :: rest))
  ∧ (filter (λ c, card_type c = ESCAPE) hand = [] →
     filter (λ c, card_type c = NUMBER) hand = [] →
     ConservativeBot.play_card self r hand ct pt bids tw round_num
     = Random.choice r hand).
Proof.
  unfold ConservativeBot.play_card. repeat split.
  - by intros e rest ->.
  - by intros -> n rest ->.
  - by intros -> ->.
Qed.

(** [ConservativeBot] plays its first escape card when it holds one;
    holding none, it plays a number card of least value when it holds a
    number card.  It plays a Pirate, a Mermaid or the Skull King only when
    it holds nothing else. *)
Theorem conservative_plays_low self r hand ct pt bids tw round_num :
  let played := ConservativeBot.play_card self r hand ct pt bids tw round_num in
  ((∃ e, e ∈ hand ∧ card_type e = ESCAPE) →
   ∃ c before after,
     played = Py.Ok c ∧ card_type c = ESCAPE ∧ hand = before ++ c :: after
     ∧ Forall (λ d, card_type d ≠ ESCAPE) before)
  ∧ (Forall (λ d, card_type d ≠ ESCAPE) hand →
     (∃ n, n ∈ hand ∧ card_type n = NUMBER) →
     ∃ c, played = Py.Ok c ∧ c ∈ hand ∧ card_type c = NUMBER
          ∧ Forall (λ d, card_type d = NUMBER → value c <= value d) hand)
  ∧ (∀ c, played = Py.Ok c → card_type c ∈ [PIRATE; MERMAID; SKULL_KING] →
     Forall (λ d, card_type d ∈ [PIRATE; MERMAID; SKULL_KING]) hand).
Proof.
  intros played. subst played.
  destruct (conservative_play_cases self r hand ct pt bids tw round_num)
    as (Hesc & Hnum & Hany).
  destruct (filter (λ c, card_type c = ESCAPE) hand) as [|e rest] eqn:Ee.
  - pose proof (filter_nil_none _ _ Ee) as Hnoesc.
    destruct (filter (λ c, card_type c = NUMBER) hand) as [|n ns] eqn:En.
    + pose proof (filter_nil_none _ _ En) as Hnonum.
      rewrite (Hany eq_refl eq_refl). repeat split.
      * intros (e & He & Hte). eapply Forall_forall in Hnoesc; [|exact He]. done.
      * intros _ (n & Hn & Htn). eapply Forall_forall in Hnonum; [|exact Hn]. done.
      * intros _ _ _. apply Forall_forall. intros d Hd.
        eapply Forall_forall in Hnoesc; [|exact Hd].
        eapply Forall_forall in Hnonum; [|exact Hd].
        destruct (card_type d); try done;
          repeat first [ by apply elem_of_cons; left | apply elem_of_cons; right ].
    + rewrite (Hnum eq_refl n ns eq_refl).
      destruct (Py.min_by value (n :: ns)) as [c|] eqn:Hmin; [|done].
      apply min_by_least in Hmin as [Hc Hleast]. rewrite <- En in Hc, Hleast.
      apply list_elem_of_filter in Hc as [Htc Hc].
      repeat split.
      * intros (e & He & Hte). eapply Forall_forall in Hnoesc; [|exact He]. done.
      * intros _ _. exists c. repeat split; try done.
        by apply (Forall_of_filter (λ d, card_type d = NUMBER) (λ d, value c <= value d)).
      * intros c' [= <-] Hsp. rewrite Htc in Hsp.
        repeat (apply elem_of_cons in Hsp as [?|Hsp]; [done|]). by apply elem_of_nil in Hsp.
  - rewrite (Hesc e rest eq_refl).
    destruct (filter_head _ _ _ _ Ee) as (pre & post & Hsplit & Hpre & Hte & _).
    repeat split.
    + intros _. exists e, pre, post. by repeat split.
    + intros Hnone. rewrite Hsplit in Hnone.
      apply Forall_app in Hnone as [_ Hnone]. by apply Forall_cons in Hnone as [? _].
    + intros c' [= <-] Hsp. rewrite Hte in Hsp.
      repeat (apply elem_of_cons in Hsp as [?|Hsp]; [done|]). by apply elem_of_nil in Hsp.
Qed.

Lemma conservative_plays_low_witness :
  let with_escape := [number Green 9; special ESCAPE; special PIRATE; special ESCAPE] in
  let without := [number Green 9; special PIRATE; number Yellow 3; number Black 3] in
  (∃ c before after,
     ConservativeBot.play_card 1 5 with_escape [] [] ∅ ∅ 4 = Py.Ok c
     ∧ card_type c = ESCAPE ∧ with_escape = before ++ c :: after
     ∧ Forall (λ d, card_type d ≠ ESCAPE) before)
  ∧ (∃ c, ConservativeBot.play_card 1 5 without [] [] ∅ ∅ 4 = Py.Ok c ∧ c ∈ without
          ∧ card_type c = NUMBER
          ∧ Forall (λ d, card_type d = NUMBER → value c <= value d) without).
Proof.
  intros with_escape without. split.
  - apply (conservative_plays_low 1 5 with_escape [] [] ∅ ∅ 4).
    exists (special ESCAPE). split; [|done].
    apply elem_of_cons. right. apply elem_of_cons. by left.
  - apply (conservative_plays_low 1 5 without [] [] ∅ ∅ 4).
    + by repeat constructor.
    + exists (number Green 9). split; [|done]. apply elem_of_cons. by left.
Defined.

(** The number of strong cards, as [AggressiveBot.make_bid] sums it. *)
Lemma strong_cards_sum hand :
  Py.sum ((λ _, 1) <$>
    filter (λ card, card_type card ∈ [PIRATE; MERMAID; SKULL_KING]
                    ∨ (card_type card = NUMBER ∧ value card >= 10)) hand)
  = Z.of_nat (count_strong hand).
Proof.
  rewrite sum_ones. f_equal.
  induction hand as [|c hand IH]; [done|].
  rewrite filter_cons. simpl. unfold strong at 1.
  destruct (decide _) as [Hs|Hs].
  - assert ((match card_type c with
             | PIRATE | MERMAID | SKULL_KING => true
             | NUMBER => bool_decide (10 <= value c)
             | ESCAPE => false
             end) = true) as ->; [|by rewrite <- IH].
    destruct Hs as [Hs|[-> Hv]]; [|apply bool_decide_eq_true_2; lia].
    repeat (apply elem_of_cons in Hs as [->|Hs]; [done|]). by apply elem_of_nil in Hs.
  - assert ((match card_type c with
             | PIRATE | MERMAID | SKULL_KING => true
             | NUMBER => bool_decide (10 <= value c)
             | ESCAPE => false
             end) = false) as ->; [|done].
    destruct (card_type c) eqn:Ht; try done.
    + apply bool_decide_eq_false_2. intros Hv. apply Hs. right. split; [done|lia].
    + destruct Hs. left. apply elem_of_cons. by left.
    + destruct Hs. left. apply elem_of_cons. right. apply elem_of_cons. by left.
    + destruct Hs. left. do 2 (apply elem_of_cons; right). apply elem_of_cons. by left.
Qed.

(** [AggressiveBot] bids the number of its strong cards, brought into the
    interval from 1 to the round number (from round 1 on): it never bids
    less than 1 nor, from round 1 on, more than the round number; it bids
    exactly its number of strong cards when that lies in between. *)
Theorem aggressive_bid_counts_strong r hand round_num previous_bids :
  let strong_cards := Z.of_nat (count_strong hand) in
  ∃ b, AggressiveBot.make_bid r hand round_num previous_bids = Py.Ok b
       ∧ b = Z.max 1 (Z.min strong_cards round_num)
       ∧ (1 <= strong_cards <= round_num → b = strong_cards)
       ∧ (1 <= round_num <= strong_cards → b = round_num)
       ∧ (strong_cards = 0 → b = 1).
Proof.
  intros strong_cards. unfold AggressiveBot.make_bid. rewrite strong_cards_sum.
  fold strong_cards. eexists. split; [done|]. repeat split; lia.
Qed.

Lemma aggressive_bid_counts_strong_witness :
  AggressiveBot.make_bid 0
    [special PIRATE; number Yellow 10; number Green 9; special ESCAPE; special MERMAID]
    5 ∅ = Py.Ok 3
  ∧ AggressiveBot.make_bid 0 [special PIRATE; number Yellow 12; special SKULL_KING] 2 ∅
    = Py.Ok 2
  ∧ AggressiveBot.make_bid 0 [number Green 9; special ESCAPE] 2 ∅ = Py.Ok 1.
Proof.
  split; [|split].
  - destruct (aggressive_bid_counts_strong 0
      [special PIRATE; number Yellow 10; number Green 9; special ESCAPE; special MERMAID]
      5 ∅) as (b & Hb & _ & Hexact & _).
    rewrite Hb. f_equal. apply Hexact. simpl. lia.
  - destruct (aggressive_bid_counts_strong 0
      [special PIRATE; number Yellow 12; special SKULL_KING] 2 ∅)
      as (b & Hb & _ & _ & Hcap & _).
    rewrite Hb. f_equal. apply Hcap. simpl. lia.
  - destruct (aggressive_bid_counts_strong 0 [number Green 9; special ESCAPE] 2 ∅)
      as (b & Hb & _ & _ & _ & Hone).
    rewrite Hb. f_equal. by apply Hone.
Defined.

(** When [AggressiveBot] needs no more tricks, or leads the trick, it plays
    as [ConservativeBot] does. *)
Theorem aggressive_plays_low self r hand ct pt bids tw round_num :
  Py.get bids self 0 - Py.get tw self 0 <= 0 ∨ ct = [] →
  AggressiveBot.play_card self r hand ct pt bids tw round_num
  = ConservativeBot.play_card self r hand ct pt bids tw round_num.
Proof.
  intros Hlow. unfold AggressiveBot.play_card, ConservativeBot.play_card.
  rewrite bool_decide_eq_false_2; [done|]. intros [Hneed Hfollow].
  destruct Hlow as [Hlow| ->]; [lia | done].
Qed.

Lemma aggressive_plays_low_witness :
  AggressiveBot.play_card 2 0 [special SKULL_KING; number Green 7; number Yellow 2]
    [] [] {[2%nat := 2]} ∅ 3
  = ConservativeBot.play_card 2 0 [special SKULL_KING; number Green 7; number Yellow 2]
      [] [] {[2%nat := 2]} ∅ 3.
Proof.
  apply (aggressive_plays_low 2 0 [special SKULL_KING; number Green 7; number Yellow 2]
           [] [] {[2%nat := 2]} ∅ 3).
  by right.
Defined.

(** When [AggressiveBot] still needs tricks and does not lead, it plays the
    Skull King if it holds it; else a Pirate; else a Mermaid; else, holding
    number cards, one of greatest value. *)
Theorem aggressive_plays_high self r hand ct pt bids tw round_num :
  Py.get bids self 0 - Py.get tw self 0 > 0 → ct ≠ [] →
  let played := AggressiveBot.play_card self r hand ct pt bids tw round_num in
  let holds t := ∃ c, c ∈ hand ∧ card_type c = t in
  (holds SKULL_KING → ∃ c, played = Py.Ok c ∧ c ∈ hand ∧ card_type c = SKULL_KING)
  ∧ (¬ holds SKULL_KING → holds PIRATE →
     ∃ c, played = Py.Ok c ∧ c ∈ hand ∧ card_type c = PIRATE)
  ∧ (¬ holds SKULL_KING → ¬ holds PIRATE → holds MERMAID →
     ∃ c, played = Py.Ok c ∧ c ∈ hand ∧ card_type c = MERMAID)
  ∧ (¬ holds SKULL_KING → ¬ holds PIRATE → ¬ holds MERMAID → holds NUMBER →
     ∃ c, played = Py.Ok c ∧ c ∈ hand ∧ card_type c = NUMBER
          ∧ Forall (λ d, card_type d = NUMBER → value d <= value c) hand).
Proof.
  intros Hneed Hfollow played holds. subst played.
  unfold AggressiveBot.play_card.
  rewrite bool_decide_eq_true_2 by done.
  set (specials := filter (λ c, card_type c ∈ [SKULL_KING; PIRATE; MERMAID]) hand).
  assert (∀ c, c ∈ specials ↔ c ∈ hand ∧ card_type c ∈ [SKULL_KING; PIRATE; MERMAID])
    as Hspecials by (intros c; subst specials; rewrite list_elem_of_filter; tauto).
  assert (∀ t, t ∈ [SKULL_KING; PIRATE; MERMAID] →
            Exists (λ c, card_type c = t) specials ↔ holds t) as Hholds.
  { intros t Ht. rewrite Exists_exists. split.
    - intros (c & Hc & Htc). exists c. apply Hspecials in Hc as [? _]. done.
    - intros (c & Hc & Htc). exists c. split; [|done]. apply Hspecials.
      split; [done|]. by rewrite Htc. }
  assert (SKULL_KING ∈ [SKULL_KING; PIRATE; MERMAID]) as Hk by (apply elem_of_cons; by left).
  assert (PIRATE ∈ [SKULL_KING; PIRATE; MERMAID]) as Hp
    by (apply elem_of_cons; right; apply elem_of_cons; by left).
  assert (MERMAID ∈ [SKULL_KING; PIRATE; MERMAID]) as Hm
    by (do 2 (apply elem_of_cons; right); apply elem_of_cons; by left).
  assert (∀ t, t ∈ [SKULL_KING; PIRATE; MERMAID] → holds t → specials ≠ []) as Hne.
  { intros t Ht Hh. apply Hholds in Hh; [|done]. intros Hnil. rewrite Hnil in Hh.
    by apply Exists_nil in Hh. }
  split; [|split; [|split]].
  - intros Hh. pose proof (Hne _ Hk Hh) as Hsome.
    destruct specials as [|s ss] eqn:Es; [done|].
    apply (Hholds _ Hk) in Hh. rewrite bool_decide_eq_true_2 by done.
    destruct (next_where_elem _ _ Hh) as (c & Hc & Hin & Htc).
    exists c. split; [done|]. split; [|done]. by apply Hspecials in Hin as [? _].
  - intros Hnk Hh. pose proof (Hne _ Hp Hh) as Hsome.
    destruct specials as [|s ss] eqn:Es; [done|].
    rewrite bool_decide_eq_false_2 by (by rewrite (Hholds _ Hk)).
    apply (Hholds _ Hp) in Hh. rewrite bool_decide_eq_true_2 by done.
    destruct (next_where_elem _ _ Hh) as (c & Hc & Hin & Htc).
    exists c. split; [done|]. split; [|done]. by apply Hspecials in Hin as [? _].
  - intros Hnk Hnp Hh. pose proof (Hne _ Hm Hh) as Hsome.
    destruct specials as [|s ss] eqn:Es; [done|].
    rewrite bool_decide_eq_false_2 by (by rewrite (Hholds _ Hk)).
    rewrite bool_decide_eq_false_2 by (by rewrite (Hholds _ Hp)).
    exists s. split; [done|].
    assert (s ∈ s :: ss) as Hs by (apply elem_of_cons; by left).
    apply Hspecials in Hs as [Hin Hts]. split; [done|].
    repeat (apply elem_of_cons in Hts as [Hts|Hts]); [| |done|by apply elem_of_nil in Hts].
    + destruct Hnk. by exists s.
    + destruct Hnp. by exists s.
  - intros Hnk Hnp Hnm (n & Hn & Htn).
    assert (specials = []) as ->.
    { apply elem_of_nil_inv. intros c Hc. apply Hspecials in Hc as [Hin Htc].
      repeat (apply elem_of_cons in Htc as [Htc|Htc]); [| | |by apply elem_of_nil in Htc].
      - destruct Hnk. by exists c.
      - destruct Hnp. by exists c.
      - destruct Hnm. by exists c. }
    destruct (filter (λ c, card_type c = NUMBER) hand) as [|m ms] eqn:En.
    { assert (n ∈ filter (λ c, card_type c = NUMBER) hand) as Hf
        by (by apply list_elem_of_filter).
      rewrite En in Hf. by apply elem_of_nil in Hf. }
    destruct (Py.max_by value (m :: ms)) as [c|] eqn:Hmax; [|done].
    apply max_by_greatest in Hmax as [Hc Hgreat]. rewrite <- En in Hc, Hgreat.
    apply list_elem_of_filter in Hc as [Htc Hc].
    exists c. repeat split; try done.
    by apply (Forall_of_filter (λ d, card_type d = NUMBER) (λ d, value d <= value c)).
Qed.

Lemma aggressive_plays_high_witness :
  let hand := [number Green 7; special MERMAID; special PIRATE; number Yellow 12] in
  ∃ c, AggressiveBot.play_card 2 0 hand [(0%nat, number Yellow 5)] [] {[2%nat := 2]}
         {[2%nat := 1]} 3 = Py.Ok c
       ∧ c ∈ hand ∧ card_type c = PIRATE.
Proof.
  intros hand.
  apply (aggressive_plays_high 2 0 hand [(0%nat, number Yellow 5)] [] {[2%nat := 2]}
           {[2%nat := 1]} 3).
  - by vm_compute.
  - done.
  - intros (c & Hc & Htc). subst hand.
    repeat (apply elem_of_cons in Hc as [->|Hc]; [done|]). by apply elem_of_nil in Hc.
  - exists (special PIRATE). split; [|done].
    do 2 (apply elem_of_cons; right). apply elem_of_cons. by left.
Defined.
End more_bots.

(** ** More on the turn *)

Section more_turn.
Import Main.
Context {G : Type} `{!Engine G}.
Variables (tape : nat → Z) (bots : list Player).
Implicit Types (game : G) (w : world) (round_num : Z) (card : Card).


Lemma next_player_none (played : list PlayerId) :
  Forall (λ p, pid p ∈ played) bots →
  Py.next_where (λ p, pid p ∉ played) bots = Py.Raise Py.StopIteration.
Proof.
  intros Hall. unfold Py.next_where.
  assert (filter (λ p, pid p ∉ played) bots = []) as ->; [|done].
  apply elem_of_nil_inv. intros p Hin. apply list_elem_of_filter in Hin as [Hn Hin].
  eapply Forall_forall in Hall; [|exact Hin]. done.
Qed.

(** The two lookups before the [try] block are not protected: when every
    bot of the list is in the trick already, [next] raises [StopIteration],
    and when the hands do not know the next player, [hands[next_player]]
    raises [KeyError]; either exception ends the turn as a crash, with
    nothing printed and no call made. *)
Theorem turn_crashes_outside_try round_num game w :
  let st := game_state game in
  let played := (default [] (current_trick st)).*1 in
  (Forall (λ p, pid p ∈ played) bots →
   play_turn tape bots round_num game w = (w, Crashed Py.StopIteration))
  ∧ (∀ next_player,
       Py.next_where (λ p, pid p ∉ played) bots = Py.Ok next_player →
       hands st !! pid next_player = None →
       play_turn tape bots round_num game w = (w, Crashed Py.KeyError)).
Proof.
  intros st played. split.
  - intros Hall. cbv [play_turn mbind run_bind bind lift]. fold st. fold played.
    by rewrite next_player_none.
  - intros next_player Hnext Hnone.
    cbv [play_turn mbind run_bind bind lift]. fold st. fold played.
    rewrite Hnext. unfold Py.item. by rewrite Hnone.
Qed.

(** Without a legal card the first card of the hand is handed to the
    engine; when the hand is empty too, [hand[0]] raises [IndexError]
    inside the [try] block: it is printed and no card is played. *)
Theorem turn_without_legal_card round_num game w next_player hand card :
  let st := game_state game in
  let cards_played := default [] (current_trick st) in
  Py.next_where (λ p, pid p ∉ cards_played.*1) bots = Py.Ok next_player →
  Py.item (hands st) (pid next_player) = Py.Ok hand →
  play_card next_player (tape (draws w)) hand cards_played (tricks st)
            (bids st) (tricks_won st) round_num = Py.Ok card →
  state_get_legal_cards game (pid next_player) = [] →
  play_turn tape bots round_num game w =
    match hand with
    | [] => (mkWorld (log w ++ [Print (Error Py.IndexError)]) (S (draws w)), Returned None)
    | first :: _ =>
        let w1 := mkWorld (log w ++ [Do (PlayCard (pid next_player) first)]) (S (draws w)) in
        match game_play_card (pid next_player) first game with
        | Py.Ok game' => (w1, Returned (Some game'))
        | Py.Raise e => (mkWorld (log w1 ++ [Print (Error e)]) (draws w1), Returned None)
        end
    end.
Proof.
  intros st cards_played Hnext Hhand Hcard Hlegal.
  cbv [play_turn mbind run_bind bind lift]. fold st. fold cards_played.
  rewrite Hnext, Hhand.
  cbv [try_except ask_and_play draw engine emit print mbind run_bind bind lift mret run_ret ret].
  cbn [log draws]. fold st. rewrite Hcard, Hlegal, checked_card_no_legal.
  destruct hand as [|first rest]; [done|]. simpl.
  by destruct (game_play_card _ _ _).
Qed.

End more_turn.

Section more_turn_samples.
Import Main.

Lemma turn_crashes_outside_try_witness :
  play_turn (Engine0 := sample_engine) sample_draws twice_listed 1 twice_listed_trick start
    = (start, Crashed Py.StopIteration)
  ∧ play_turn (Engine0 := sample_engine) sample_draws create_competition_bots 2
      no_hand_trick start
    = (start, Crashed Py.KeyError).
Proof.
  split.
  - apply (turn_crashes_outside_try (Engine0 := sample_engine) sample_draws twice_listed
             1 twice_listed_trick start).
    repeat constructor.
  - apply (turn_crashes_outside_try (Engine0 := sample_engine) sample_draws
             create_competition_bots 2 no_hand_trick start)
      with (next_player := new_ConservativeBot 1 "ConservativeBot"); reflexivity.
Defined.

Lemma turn_without_legal_card_witness :
  play_turn (Engine0 := sample_engine) sample_draws stubborn_bots 2 empty_hand_trick start
    = (mkWorld [Print (Error Py.IndexError)] 1, Returned None).
Proof.
  exact (turn_without_legal_card (Engine0 := sample_engine) sample_draws stubborn_bots 2
           empty_hand_trick start (new_StubbornBot 1 "StubbornBot") []
           (special SKULL_KING) eq_refl eq_refl eq_refl eq_refl).
Defined.


End more_turn_samples.

(** ** More on the entry points *)

Section more_runs.
Import Main.
Context {G : Type} `{!Engine G}.
Variables (tape : nat → Z) (bots : list Player) (fuel : nat) (num_rounds num_games : Z).

Lemma engine_then {A B} c (m : Py.result A) (k : A → run B) w :
  (engine c m ≫= k) w =
  match m with
  | Py.Ok a => k a (mkWorld (log w ++ [Do c]) (draws w))
  | Py.Raise e => (mkWorld (log w ++ [Do c]) (draws w), Crashed e)
  end.
Proof. by destruct m. Qed.

Lemma emit_then {A} e (k : run A) w :
  (emit e;; k) w = k (mkWorld (log w ++ [e]) (draws w)).
Proof. done. Qed.

Lemma calls_of_prints (ls : list line) : omap call_of (Print <$> ls) = [].
Proof. induction ls as [|l ls IH]; [done|]. simpl. exact IH. Qed.

Lemma calls_of_add w d (l : list event) :
  calls_of (mkWorld (log w ++ l) d) = calls_of w ++ omap call_of l.
Proof. unfold calls_of. cbn [log]. by rewrite omap_app. Qed.

#[local] Abbreviation gui_calls := (gui_calls bots num_rounds).

(** With two bots or more, the GUI entry point makes its seven calls in a
    fixed order and stops at the first one that raises, which ends the run
    as a crash: it constructs the game, sets and starts round 1, collects
    the bids, starts the first trick, hands over to the display and asks for
    the final scores.  It plays no card and computes no score itself. *)
Theorem gui_calls_in_order w :
  (2 <= length bots)%nat →
  let run := run_competition_with_gui_on (G := G) bots num_rounds w in
  ∃ made,
    calls_of run.1 = calls_of w ++ made
    ∧ made `prefix_of` gui_calls
    ∧ (run.2 = Returned () → made = gui_calls)
    ∧ (made ≠ gui_calls → ∃ e, run.2 = Crashed e).
Proof.
  intros Hlen run. subst run. unfold run_competition_with_gui_on.
  rewrite bool_decide_eq_false_2 by lia.
  rewrite !print_then, engine_ok_then, emit_then, engine_then.
  destruct (game_start_round _ _) as [g1|e]; cbn [fst snd].
  2:{ exists (take 3 gui_calls). rewrite !calls_of_add. simpl. rewrite !app_nil_r, <- !app_assoc.
      split; [done|]. split; [by eexists|]. split; [done|]. by eauto. }
  rewrite engine_then. destruct (game_collect_bids _) as [g2|e]; cbn [fst snd].
  2:{ exists (take 4 gui_calls). rewrite !calls_of_add. simpl. rewrite !app_nil_r, <- !app_assoc.
      split; [done|]. split; [by eexists|]. split; [done|]. by eauto. }
  rewrite engine_then. destruct (game_start_trick _) as [g3|e]; cbn [fst snd].
  2:{ exists (take 5 gui_calls). rewrite !calls_of_add. simpl. rewrite !app_nil_r, <- !app_assoc.
      split; [done|]. split; [by eexists|]. split; [done|]. by eauto. }
  rewrite engine_then. destruct (gui_session _) as [g4|e]; cbn [fst snd].
  2:{ exists (take 6 gui_calls). rewrite !calls_of_add. simpl. rewrite !app_nil_r, <- !app_assoc.
      split; [done|]. split; [by eexists|]. split; [done|]. by eauto. }
  rewrite engine_then. destruct (game_get_final_scores _) as [fs|e]; cbn [fst snd].
  2:{ exists gui_calls. rewrite !calls_of_add. simpl. rewrite !app_nil_r, <- !app_assoc.
      split; [done|]. split; [done|]. split; [done|]. done. }
  rewrite !print_then. cbv [mbind run_bind bind]. rewrite for_each_print. cbn [fst snd].
  exists gui_calls. unfold print, emit. cbn [fst snd]. rewrite !calls_of_add.
  rewrite calls_of_prints. simpl. rewrite !app_nil_r, <- !app_assoc.
  split; [done|]. split; [done|]. split; [done|]. done.
Qed.

Lemma adds_only_bind_returned {A B} (P : event → Prop) (m : run A) (k : A → run B) :
  adds_only P m → (∀ a, (∃ w w', m w = (w', Returned a)) → adds_only P (k a)) →
  adds_only P (m ≫= k).
Proof.
  intros Hm Hk w. cbv [mbind run_bind bind]. destruct (Hm w) as (l & Hl & HP).
  destruct (m w) as [w' [a|e|]] eqn:Hmw; simpl in Hl.
  - destruct (Hk a) with (w := w') as (l' & Hl' & HP'); [by eauto|].
    exists (l ++ l'). rewrite Hl', Hl, app_assoc. split; [done|]. by apply Forall_app.
  - by exists l.
  - by exists l.
Qed.

Lemma adds_only_for_each_in {X A} (P : event → Prop) (xs : list X)
    (body : X → A → run A) (a : A) :
  (∀ x a, x ∈ xs → adds_only P (body x a)) → adds_only P (for_each xs body a).
Proof.
  revert a. induction xs as [|x xs IH]; intros a Hbody; simpl.
  - apply adds_only_ret.
  - apply adds_only_bind.
    + apply Hbody. apply elem_of_cons. by left.
    + intros a'. apply IH. intros x' a'' Hx'. apply Hbody. apply elem_of_cons. by right.
Qed.

(** What one game of the headless entry point adds to the log: lines other
    than those of the statistics, and calls that [headless_call] allows. *)
Section emits.
Variable P : event → Prop.
Hypothesis Pprint : ∀ l, ¬ statistics_line l → P (Print l).
Hypothesis Pcall : ∀ c, headless_call bots num_rounds c → P (Do c).

#[local] Hint Extern 1 (P (Print _)) => (apply Pprint; by simpl) : core.
#[local] Hint Extern 1 (P (Do _)) => (apply Pcall; by simpl) : core.

Lemma play_turn_emits round_num game : adds_only P (play_turn tape bots round_num game).
Proof.
  unfold play_turn. apply adds_only_bind_returned; [apply adds_only_lift|].
  intros next_player (w & w' & [Hnext _]%lift_returned).
  assert (next_player ∈ bots) as Hin.
  { unfold Py.next_where in Hnext.
    destruct (filter _ bots) as [|p rest] eqn:Hf; [done|]. injection Hnext as ->.
    assert (next_player
              ∈ filter (λ p, pid p ∉ (default [] (current_trick (game_state game))).*1) bots)
      as Hp by (rewrite Hf; apply elem_of_cons; by left).
    by apply list_elem_of_filter in Hp as [_ ?]. }
  unfold ask_and_play. repeat (adds_only_step; auto).
  apply Pcall. simpl. by exists next_player.
Qed.

Lemma play_trick_emits fuel' round_num game :
  adds_only P (play_trick tape bots fuel' round_num game).
Proof.
  revert game. induction fuel' as [|fuel' IH]; intros game; simpl.
  - repeat (adds_only_step; auto).
  - destruct (current_trick _); [|adds_only_step].
    destruct (bool_decide _); [|adds_only_step].
    adds_only_step; [apply play_turn_emits|]. destruct a; [apply IH | adds_only_step].
Qed.

Lemma play_tricks_emits fuel' inner round_num game :
  adds_only P (play_tricks tape bots fuel' inner round_num game).
Proof.
  revert game. induction fuel' as [|fuel' IH]; intros game; simpl.
  - repeat (adds_only_step; auto).
  - destruct (game_is_round_complete _); [adds_only_step|].
    adds_only_step; [repeat (adds_only_step; auto)|].
    adds_only_step; [apply play_trick_emits | apply IH].
Qed.

Lemma play_round_emits round_num game :
  1 <= round_num <= num_rounds →
  adds_only P (play_round tape bots fuel round_num game).
Proof.
  intros Hround. unfold play_round.
  repeat first [ apply play_tricks_emits | adds_only_step; auto ].
Qed.

Lemma play_game_emits game_num all_scores :
  adds_only P (play_game tape bots fuel num_rounds num_games game_num all_scores).
Proof.
  unfold play_game.
  adds_only_step; [adds_only_step; auto|].
  adds_only_step; [adds_only_step; auto|].
  adds_only_step; [adds_only_step; auto|].
  adds_only_step.
  { apply adds_only_for_each_in. intros x game Hx. apply play_round_emits.
    apply elem_of_seqZ in Hx. lia. }
  repeat (adds_only_step; auto).
Qed.
End emits.

Lemma headless_allowed :
  adds_only (headless_event bots num_rounds)
    (run_competition_headless_on tape bots fuel num_rounds num_games).
Proof.
  unfold run_competition_headless_on.
  repeat first [ apply play_game_emits; by intros | adds_only_step; try done ].
Qed.

(** The headless entry point never starts the display; it plays cards only
    for bots of the list, starts only rounds numbered from 1 to
    [num_rounds], and constructs games only over the bots. *)
Theorem headless_calls_allowed (c : call) :
  c ∈ calls_of (run_competition_headless_on tape bots fuel num_rounds num_games start).1 →
  c ≠ Gui
  ∧ (∀ player card, c = PlayCard player card → ∃ p, p ∈ bots ∧ pid p = player)
  ∧ (∀ n, c = StartRound n ∨ c = SetCurrentRound n → 1 <= n <= num_rounds)
  ∧ (∀ bs n, c = SkullKingGame bs n → bs = bots ∧ n = num_rounds).
Proof.
  intros Hc. destruct (headless_allowed start) as (l & Hl & HP).
  unfold calls_of in Hc. rewrite Hl in Hc. simpl in Hc.
  apply list_elem_of_omap in Hc as (e & He & Hcall).
  destruct e as [|c']; [done|]. injection Hcall as ->.
  eapply Forall_forall in HP; [|exact He]. simpl in HP.
  split; [|split; [|split]].
  - by intros ->.
  - by intros player card ->.
  - by intros n [->| ->].
  - by intros bs n ->.
Qed.
End more_runs.

Section more_report.
Import Main.

(** An item that is not below any item of a sorted list goes in front. *)
Lemma sorted_desc_of_sorted {A} (items : list (A * Z)) :
  StronglySorted (λ a b, b.2 <= a.2) items → sorted_desc items = items.
Proof.
  induction 1 as [|x l Hl IH Hx]; [done|]. simpl. rewrite IH.
  destruct l as [|y l']; [done|]. simpl.
  apply Forall_cons in Hx as [Hy _]. by rewrite bool_decide_eq_true_2.
Qed.

(** The ranking of the GUI entry point has one line for every item of the
    final scores, numbered 1, 2, 3 and so on; items with equal scores stay
    in the order of the items, and final scores that are in descending
    order already are listed as they are. *)
Theorem ranking_numbered_and_stable (final_scores : list (Player * Z)) :
  length (final_ranking final_scores) = length final_scores
  ∧ (∀ i l, final_ranking final_scores !! i = Some l →
       ∃ ps, sorted_desc final_scores !! i = Some ps
             ∧ l = Ranked (S i) (name ps.1) ps.2)
  ∧ (∀ score, filter (λ ps, ps.2 = score) (sorted_desc final_scores)
              = filter (λ ps, ps.2 = score) final_scores)
  ∧ (StronglySorted (λ a b, b.2 <= a.2) final_scores →
     sorted_desc final_scores = final_scores).
Proof.
  split; [|split; [|split]].
  - unfold final_ranking. rewrite length_imap.
    apply Permutation_length, sorted_desc_perm.
  - intros i l Hl. unfold final_ranking in Hl. rewrite list_lookup_imap in Hl.
    destruct (sorted_desc final_scores !! i) as [ps|]; [|done].
    exists ps. split; [done|]. by injection Hl as <-.
  - intros score. apply sorted_desc_stable.
  - apply sorted_desc_of_sorted.
Qed.

Lemma ranking_numbered_and_stable_witness :
  (∃ ps, sorted_desc tied_scores !! 1%nat = Some ps
         ∧ Ranked 2 "AggressiveBot" 30 = Ranked 2 (name ps.1) ps.2)
  ∧ sorted_desc (sorted_desc tied_scores) = sorted_desc tied_scores.
Proof.
  split.
  - apply (ranking_numbered_and_stable tied_scores). reflexivity.
  - apply (ranking_numbered_and_stable (sorted_desc tied_scores)).
    apply sorted_desc_sorted.
Defined.
End more_report.

Section more_games.
Import Main.
Context {G : Type} `{!Engine G}.
Variables (tape : nat → Z) (bots : list Player) (fuel : nat) (num_rounds num_games : Z).

Lemma engine_then_bind {A B} c (m : Py.result A) (k : A → run B) w :
  bind (engine c m) k w =
  match m with
  | Py.Ok a => k a (mkWorld (log w ++ [Do c]) (draws w))
  | Py.Raise e => (mkWorld (log w ++ [Do c]) (draws w), Crashed e)
  end.
Proof. by destruct m. Qed.

Lemma item_raises_key_error {V} (d : gmap nat V) k e :
  Py.item d k = Py.Raise e → e = Py.KeyError.
Proof. unfold Py.item. destruct (d !! k); [done|]. by intros [= <-]. Qed.

Lemma item_of_raises_key_error d p e :
  item_of d p = Py.Raise e → e = Py.KeyError.
Proof. unfold item_of. destruct (filter _ d); [|done]. by intros [= <-]. Qed.

(** A bot without final score stops the collection with a [KeyError]. *)
Lemma collect_scores_missing final_scores all_scores w bot :
  bot ∈ bots →
  item_of final_scores bot = Py.Raise Py.KeyError →
  for_each bots
    (λ bot all_scores,
       sofar ← lift (Py.item all_scores (pid bot));
       score ← lift (item_of final_scores bot);
       mret (<[pid bot := sofar ++ [score]]> all_scores))
    all_scores w = (w, Crashed Py.KeyError).
Proof.
  intros Hin Hmiss. revert all_scores.
  induction bots as [|b bs IH]; intros all_scores; [by apply elem_of_nil in Hin|].
  cbn [for_each]. cbv [mbind run_bind bind lift mret run_ret ret].
  destruct (Py.item all_scores (pid b)) as [sofar|e] eqn:Hsofar.
  2:{ by rewrite (item_raises_key_error _ _ _ Hsofar). }
  destruct (item_of final_scores b) as [score|e] eqn:Hscore.
  2:{ by rewrite (item_of_raises_key_error _ _ _ Hscore). }
  apply elem_of_cons in Hin as [->|Hin]; [by rewrite Hmiss in Hscore|].
  by apply IH.
Qed.

(** When the final scores that the engine gives lack one of the bots, the
    game of the headless entry point ends as a crash with [KeyError], right
    after the call for the final scores: the final scores are not printed. *)
Theorem headless_missing_score game_num all_scores w w1 game final_scores bot :
  for_each (seqZ 1 num_rounds) (play_round tape bots fuel) (game_new bots num_rounds)
    (mkWorld (log w ++ [Print (GameHeader (game_num + 1) num_games); Print Dashes;
                        Do (SkullKingGame bots num_rounds)]) (draws w))
    = (w1, Returned game) →
  game_get_final_scores game = Py.Ok final_scores →
  bot ∈ bots →
  item_of final_scores bot = Py.Raise Py.KeyError →
  play_game tape bots fuel num_rounds num_games game_num all_scores w
    = (mkWorld (log w1 ++ [Do GetFinalScores]) (draws w1), Crashed Py.KeyError).
Proof.
  intros Hrounds Hfs Hin Hmiss. unfold play_game.
  rewrite !print_then, engine_ok_then. cbn [log draws]. rewrite <- !app_assoc.
  cbn [app].
  cbv [mbind run_bind]. unfold bind at 1. rewrite Hrounds. cbv beta iota.
  rewrite engine_then_bind, Hfs. unfold bind at 1.
  pose proof (collect_scores_missing final_scores all_scores
                (mkWorld (log w1 ++ [Do GetFinalScores]) (draws w1)) bot Hin Hmiss) as Hc.
  cbv [mbind run_bind] in Hc. by rewrite Hc.
Qed.
End more_games.

Section more_headless.
Import Main.
Context {G : Type} `{!Engine G}.
Variables (tape : nat → Z) (bots : list Player) (fuel : nat) (num_rounds num_games : Z).

Lemma seqZ_empty (m n : Z) : n <= 0 → seqZ m n = [].
Proof. intros Hn. unfold seqZ. by replace (Z.to_nat n) with 0%nat by lia. Qed.

Lemma calls_unchanged {A} (m : run A) w :
  adds_only (λ e, call_of e = None) m → calls_of (m w).1 = calls_of w.
Proof.
  intros Hm. destruct (Hm w) as (l & Hl & HP). unfold calls_of. rewrite Hl, omap_app.
  assert (omap call_of l = []) as ->; [|by rewrite app_nil_r].
  apply elem_of_nil_inv. intros c Hc. apply list_elem_of_omap in Hc as (e & He & Hcall).
  eapply Forall_forall in HP; [|exact He]. simpl in HP. by rewrite HP in Hcall.
Qed.

(** With a number of rounds that is zero or negative, a game of the
    headless entry point deals no round and plays no card: it constructs
    the game and asks for the final scores, and that is all it calls. *)
Theorem headless_without_rounds game_num all_scores w :
  num_rounds <= 0 →
  calls_of (play_game tape bots fuel num_rounds num_games game_num all_scores w).1
  = calls_of w ++ [SkullKingGame bots num_rounds; GetFinalScores].
Proof.
  intros Hnone. unfold play_game.
  rewrite !print_then, engine_ok_then. rewrite (seqZ_empty 1 num_rounds Hnone).
  cbn [for_each].
  change ((ret (game_new bots num_rounds) ≫= ?k) ?w') with (k (game_new bots num_rounds) w').
  cbv beta. rewrite engine_then.
  destruct (game_get_final_scores _) as [fs|e].
  - rewrite calls_unchanged.
    + rewrite !calls_of_add. simpl. by rewrite !app_nil_r, <- !app_assoc.
    + repeat (adds_only_step; try done).
  - cbn [fst]. rewrite !calls_of_add. simpl. by rewrite !app_nil_r, <- !app_assoc.
Qed.

(** For a single game, or none, the headless entry point prints no
    statistics. *)
Theorem headless_statistics_need_two_games w :
  num_games <= 1 →
  ∃ added,
    printed (run_competition_headless_on tape bots fuel num_rounds num_games w).1
      = printed w ++ added
    ∧ Forall (λ l, ¬ statistics_line l) added.
Proof.
  intros Hone.
  assert (adds_only (λ e, ∀ l, e = Print l → ¬ statistics_line l)
            (run_competition_headless_on tape bots fuel num_rounds num_games)) as Hquiet.
  { unfold run_competition_headless_on.
    destruct (bool_decide (length bots < 2)%nat).
    { apply adds_only_print. intros l [= <-]. by intros []. }
    rewrite (bool_decide_eq_false_2 (num_games > 1)) by lia.
    adds_only_step; [|adds_only_step].
    apply adds_only_for_each. intros game_num all_scores.
    apply play_game_emits.
    - by intros l Hl l' [= <-].
    - by intros c _ l. }
  destruct (Hquiet w) as (l & Hl & HP).
  exists (omap line_of l). split.
  - unfold printed. by rewrite Hl, omap_app.
  - apply Forall_forall. intros x Hx. apply list_elem_of_omap in Hx as (e & He & Hline).
    eapply Forall_forall in HP; [|exact He]. apply HP.
    destruct e; [|done]. by injection Hline as ->.
Qed.
End more_headless.

Section statistics.
Import Main.
Context {G : Type} `{!Engine G}.
Variables (tape : nat → Z) (bots : list Player) (fuel : nat) (num_rounds num_games : Z).

(** Every bot of [bs] has [k] scores in [all_scores]. *)
#[local] Abbreviation scored bs k all_scores :=
  (∀ bot : Player, bot ∈ (bs : list Player) →
     ∃ scores : list Z,
       (all_scores : gmap nat (list Z)) !! pid bot = Some scores ∧ length scores = k).

Lemma initial_scores (bs : list Player) :
  scored bs 0%nat (list_to_map ((λ bot, (pid bot, [])) <$> bs)).
Proof.
  induction bs as [|b bs IH]; intros bot Hin; [by apply elem_of_nil in Hin|].
  rewrite fmap_cons, list_to_map_cons. cbn [fst snd].
  destruct (decide (pid b = pid bot)) as [Heq|Hne].
  - rewrite Heq, lookup_insert_eq. by exists [].
  - rewrite lookup_insert_ne by done. apply elem_of_cons in Hin as [->|Hin]; [done|].
    by apply IH.
Qed.

(** With bots of distinct identities, collecting the final scores of a game
    adds one score for every bot. *)
Lemma collect_scores_appends final_scores (bs : list Player) all_scores w w' all_scores' :
  NoDup (pid <$> bs) →
  for_each bs
    (λ bot all_scores,
       sofar ← lift (Py.item all_scores (pid bot));
       score ← lift (item_of final_scores bot);
       mret (<[pid bot := sofar ++ [score]]> all_scores))
    all_scores w = (w', Returned all_scores') →
  w' = w
  ∧ (∀ bot, bot ∈ bs →
       ∃ sofar score, all_scores !! pid bot = Some sofar
                      ∧ all_scores' !! pid bot = Some (sofar ++ [score]))
  ∧ (∀ k, k ∉ pid <$> bs → all_scores' !! k = all_scores !! k).
Proof.
  revert all_scores. induction bs as [|b bs IH]; intros all_scores Hnodup.
  - intros [= <- <-]. split; [done|]. split; [|done].
    intros bot Hin. by apply elem_of_nil in Hin.
  - rewrite fmap_cons in Hnodup. apply NoDup_cons in Hnodup as [Hb Hnodup].
    cbn [for_each]. cbv [mbind run_bind bind lift mret run_ret ret].
    unfold Py.item.
    destruct (all_scores !! pid b) as [sofar|] eqn:Hsofar; [|done].
    destruct (item_of final_scores b) as [score|]; [|done].
    intros Hrest. apply IH in Hrest as (-> & Hin & Hout); [|done].
    split; [done|]. split.
    + intros bot Hbot. destruct (decide (pid bot = pid b)) as [Heq|Hne].
      * exists sofar, score. rewrite Heq, (Hout _ Hb), lookup_insert_eq. done.
      * apply elem_of_cons in Hbot as [->|Hbot]; [done|].
        destruct (Hin bot Hbot) as (sofar' & score' & Hs & Hs').
        rewrite lookup_insert_ne in Hs by done. by exists sofar', score'.
    + intros k Hk. rewrite fmap_cons in Hk. apply not_elem_of_cons in Hk as [Hkb Hk].
      rewrite (Hout k Hk). by rewrite lookup_insert_ne.
Qed.

(** A game that returns adds one score for every bot. *)
Lemma play_game_scores k game_num all_scores w w' all_scores' :
  NoDup (pid <$> bots) →
  scored bots k all_scores →
  play_game tape bots fuel num_rounds num_games game_num all_scores w
    = (w', Returned all_scores') →
  scored bots (S k) all_scores'.
Proof.
  intros Hnodup Hk. unfold play_game. rewrite !print_then, engine_ok_then. intros Hrun.
  apply bind_returned in Hrun as (w1 & g1 & _ & Hrun).
  apply bind_returned in Hrun as (w2 & fs & _ & Hrun).
  apply bind_returned in Hrun as (w3 & scores & Hcollect & Hrun).
  apply bind_returned in Hrun as (w4 & l & _ & Hrun).
  rewrite print_then in Hrun. injection Hrun as _ <-.
  apply collect_scores_appends in Hcollect as (_ & Hin & _); [|done].
  intros bot Hbot. destruct (Hin bot Hbot) as (sofar & score & Hs & Hs').
  destruct (Hk bot Hbot) as (sofar' & Hs'' & Hlen).
  exists (sofar ++ [score]). split; [done|].
  rewrite Hs in Hs''. injection Hs'' as ->. rewrite length_app. simpl. lia.
Qed.

Lemma games_scores (games : list Z) k all_scores w w' all_scores' :
  NoDup (pid <$> bots) →
  scored bots k all_scores →
  for_each games (play_game tape bots fuel num_rounds num_games) all_scores w
    = (w', Returned all_scores') →
  scored bots (k + length games)%nat all_scores'.
Proof.
  intros Hnodup. revert k all_scores w.
  induction games as [|g games IH]; intros k all_scores w Hk.
  - intros [= <- <-]. by rewrite Nat.add_0_r.
  - cbn [for_each]. intros Hrun.
    change (bind ?m ?f w) with ((m ≫= f) w) in Hrun.
    apply bind_returned in Hrun as (w1 & all1 & Hgame & Hrun).
    rewrite length_cons, Nat.add_succ_r, <- Nat.add_succ_l.
    eapply IH; [|exact Hrun]. by eapply play_game_scores.
Qed.

(** The lines that the loop over the bots prints at the end. *)
Lemma averages_printed (bs : list Player) (all_scores : gmap nat (list Z)) w w' :
  for_each bs
    (λ bot _,
       scores ← lift (Py.item all_scores (pid bot));
       print (Average (name bot) (Py.sum scores) (length scores)))
    () w = (w', Returned ()) →
  ∃ lines,
    w' = mkWorld (log w ++ (Print <$> lines)) (draws w)
    ∧ Forall2 (λ bot l, ∃ scores, all_scores !! pid bot = Some scores
                         ∧ l = Average (name bot) (Py.sum scores) (length scores))
        bs lines.
Proof.
  revert w. induction bs as [|b bs IH]; intros w.
  - intros [= <-]. exists []. rewrite app_nil_r. split; [by destruct w | constructor].
  - cbn [for_each]. cbv [mbind run_bind bind lift]. unfold Py.item.
    destruct (all_scores !! pid b) as [scores|] eqn:Hs; [|done].
    unfold print, emit. intros Hrest.
    apply IH in Hrest as (lines & -> & Hall).
    exists (Average (name b) (Py.sum scores) (length scores) :: lines).
    cbn [log draws]. rewrite fmap_cons, <- app_assoc. split; [done|].
    constructor; [by exists scores | done].
Qed.

(** With bots of distinct identities and more than one game, a headless
    run that returns ends with the statistics: a header and, for every bot
    in the order of the list, its average over exactly [num_games] final
    scores, so that the average never divides by zero. *)
Theorem headless_statistics w w' :
  NoDup (pid <$> bots) →
  (2 <= length bots)%nat →
  num_games > 1 →
  run_competition_headless_on tape bots fuel num_rounds num_games w = (w', Returned ()) →
  ∃ earlier averages,
    printed w' = earlier ++ [Separator; Statistics; Separator] ++ averages ++ [Separator]
    ∧ Forall2 (λ bot l, ∃ total, l = Average (name bot) total (Z.to_nat num_games))
        bots averages.
Proof.
  intros Hnodup Hlen Hgames. unfold run_competition_headless_on.
  rewrite bool_decide_eq_false_2 by lia. intros Hrun.
  apply bind_returned in Hrun as (w1 & all_scores & Hloop & Hrun).
  rewrite bool_decide_eq_true_2 in Hrun by done.
  rewrite !print_then in Hrun.
  apply bind_returned in Hrun as (w2 & [] & Haverages & Hrun).
  unfold print, emit in Hrun. injection Hrun as <-.
  apply averages_printed in Haverages as (lines & -> & Hlines).
  pose proof (games_scores _ 0%nat _ _ _ _ Hnodup (initial_scores bots) Hloop) as Hscored.
  rewrite length_seqZ in Hscored. clear Hloop. rename Hscored into Hloop.
  exists (printed w1), lines. split.
  - unfold printed. cbn [log]. rewrite !omap_app, printed_prints. simpl.
    by rewrite <- !app_assoc.
  - clear -Hlines Hloop. induction Hlines as [|b l bs ls (scores & Hs & ->) _ IH].
    + constructor.
    + constructor.
      * destruct (Hloop b) as (scores' & Hs' & Hlen); [apply elem_of_cons; by left|].
        rewrite Hs in Hs'. injection Hs' as <-. rewrite Hlen. by eexists.
      * apply IH. intros bot Hbot. apply Hloop. apply elem_of_cons. by right.
Qed.
End statistics.

Section uncaught.
Import Main.
Context {G : Type} `{!Engine G}.
Variables (tape : nat → Z) (bots : list Player) (fuel : nat) (num_rounds num_games : Z).

Lemma crash_bind {A B} (m : run A) (k : A → run B) w e :
  (m w).2 = Crashed e → (bind m k w).2 = Crashed e.
Proof. unfold bind. destruct (m w) as [w' [a|e'|]]; [done| |done]. by intros [= ->]. Qed.

(** A round whose [start_round] or [collect_bids] raises ends as a crash. *)
Lemma play_round_crash round_num game w e :
  let fresh := game_set_current_round round_num game in
  game_start_round round_num fresh = Py.Raise e
  ∨ (∃ dealt, game_start_round round_num fresh = Py.Ok dealt
              ∧ game_collect_bids dealt = Py.Raise e) →
  (play_round tape bots fuel round_num game w).2 = Crashed e.
Proof.
  intros fresh Hfail. unfold play_round. rewrite emit_then, engine_then. fold fresh.
  destruct Hfail as [-> | (dealt & -> & Hbids)]; [done|].
  by rewrite engine_then, Hbids.
Qed.

(** Only the players' moves are inside a [try]: an exception that
    [start_round] or [collect_bids] raises in the first round is not caught
    and ends the run of either entry point as a crash with that exception. *)
Theorem first_round_failure_crashes w e :
  (2 <= length bots)%nat →
  let fresh := game_set_current_round 1 (game_new bots num_rounds) in
  game_start_round 1 fresh = Py.Raise e
  ∨ (∃ dealt, game_start_round 1 fresh = Py.Ok dealt
              ∧ game_collect_bids dealt = Py.Raise e) →
  (run_competition_with_gui_on (G := G) bots num_rounds w).2 = Crashed e
  ∧ (1 <= num_games → 1 <= num_rounds →
     (run_competition_headless_on tape bots fuel num_rounds num_games w).2 = Crashed e).
Proof.
  intros Hlen fresh Hfail. split.
  - unfold run_competition_with_gui_on. rewrite bool_decide_eq_false_2 by lia.
    rewrite !print_then, engine_ok_then, emit_then, engine_then. fold fresh.
    destruct Hfail as [-> | (dealt & -> & Hbids)]; [done|].
    by rewrite engine_then, Hbids.
  - intros Hgames Hrounds. unfold run_competition_headless_on.
    rewrite bool_decide_eq_false_2 by lia.
    rewrite (seqZ_cons 0 num_games) by lia. cbn [for_each].
    apply crash_bind, crash_bind. unfold play_game.
    rewrite !print_then, engine_ok_then.
    rewrite (seqZ_cons 1 num_rounds) by lia. cbn [for_each].
    apply crash_bind, crash_bind. by apply play_round_crash.
Qed.
End uncaught.

Section more_run_samples.
Import Main.

Lemma gui_calls_in_order_witness :
  ∃ made,
    calls_of (run_competition_with_gui_on (Engine0 := sample_engine)
                create_competition_bots 10 start).1 = calls_of start ++ made
    ∧ made `prefix_of` gui_calls create_competition_bots 10
    ∧ ((run_competition_with_gui_on (Engine0 := sample_engine)
          create_competition_bots 10 start).2 = Returned () →
       made = gui_calls create_competition_bots 10)
    ∧ (made ≠ gui_calls create_competition_bots 10 →
       ∃ e, (run_competition_with_gui_on (Engine0 := sample_engine)
               create_competition_bots 10 start).2 = Crashed e).
Proof.
  apply (gui_calls_in_order (Engine0 := sample_engine) create_competition_bots 10 start).
  simpl. lia.
Defined.

Lemma headless_calls_allowed_witness :
  ∃ p, p ∈ create_competition_bots ∧ pid p = 0%nat.
Proof.
  destruct (headless_calls_allowed (Engine0 := sample_engine) sample_draws
              create_competition_bots 100 1 1 (PlayCard 0 (number Yellow 2)))
    as (_ & Hplayer & _).
  - apply (list_elem_of_lookup_2 _ 5). vm_compute. reflexivity.
  - by apply (Hplayer 0%nat (number Yellow 2)).
Defined.

Lemma headless_missing_score_witness :
  play_game (Engine0 := forgetful_engine) sample_draws create_competition_bots 100 0 1 0
    ∅ start
  = (mkWorld [Print (GameHeader 1 1); Print Dashes;
              Do (SkullKingGame create_competition_bots 0); Do GetFinalScores] 0,
     Crashed Py.KeyError).
Proof.
  exact (headless_missing_score (Engine0 := forgetful_engine) sample_draws
           create_competition_bots 100 0 1 0 ∅ start _ _ []
           (new_RandomBot 0 "RandomBot") eq_refl eq_refl
           (list_elem_of_here _ _) eq_refl).
Defined.

Lemma headless_without_rounds_witness :
  calls_of (play_game (Engine0 := sample_engine) sample_draws create_competition_bots 100
              0 1 0 {[0%nat := []; 1%nat := []; 2%nat := []]} start).1
  = calls_of start ++ [SkullKingGame create_competition_bots 0; GetFinalScores].
Proof.
  apply (headless_without_rounds (Engine0 := sample_engine) sample_draws
           create_competition_bots 100 0 1 0 {[0%nat := []; 1%nat := []; 2%nat := []]} start).
  lia.
Defined.

Lemma headless_statistics_need_two_games_witness :
  ∃ added,
    printed (run_competition_headless_on (Engine0 := sample_engine) sample_draws
               create_competition_bots 100 1 1 start).1 = printed start ++ added
    ∧ Forall (λ l, ¬ statistics_line l) added.
Proof.
  apply (headless_statistics_need_two_games (Engine0 := sample_engine) sample_draws
           create_competition_bots 100 1 1 start).
  lia.
Defined.

Lemma headless_statistics_witness :
  ∃ earlier averages,
    printed (run_competition_headless_on (Engine0 := sample_engine) sample_draws
               create_competition_bots 100 1 2 start).1
      = earlier ++ [Separator; Statistics; Separator] ++ averages ++ [Separator]
    ∧ Forall2 (λ bot l, ∃ total, l = Average (name bot) total 2)
        create_competition_bots averages.
Proof.
  assert (run_competition_headless_on (Engine0 := sample_engine) sample_draws
            create_competition_bots 100 1 2 start
          = ((run_competition_headless_on (Engine0 := sample_engine) sample_draws
                create_competition_bots 100 1 2 start).1, Returned ())) as Hrun
    by (vm_compute; reflexivity).
  apply (headless_statistics (Engine0 := sample_engine) sample_draws
           create_competition_bots 100 1 2 start _) in Hrun; [exact Hrun| | |].
  - apply (bool_decide_unpack _). by vm_compute.
  - simpl. lia.
  - lia.
Defined.

Lemma first_round_failure_crashes_witness :
  (run_competition_with_gui_on (Engine0 := tiny_engine) create_competition_bots 10 start).2
    = Crashed Py.ConfigurationError
  ∧ (run_competition_headless_on (Engine0 := tiny_engine) sample_draws
       create_competition_bots 100 10 1 start).2 = Crashed Py.ConfigurationError.
Proof.
  destruct (first_round_failure_crashes (Engine0 := tiny_engine) sample_draws
              create_competition_bots 100 10 1 start Py.ConfigurationError)
    as [Hgui Hheadless].
  - simpl. lia.
  - left. reflexivity.
  - split; [exact Hgui | apply Hheadless; lia].
Defined.
End more_run_samples.

Section trick_loop.
Import Main.
Context {G : Type} `{!Engine G}.
Variables (tape : nat → Z) (bots : list Player).

(** How a turn can end: as a crash, with the [break], or with the game
    that the engine returned for a card. *)
Lemma play_turn_outcome round_num game w :
  let outcome := play_turn tape bots round_num game w in
  (∃ e, outcome.2 = Crashed e)
  ∨ outcome.2 = Returned None
  ∨ ∃ player card game',
      outcome.2 = Returned (Some game')
      ∧ game_play_card player card game = Py.Ok game'.
Proof.
  cbv [play_turn mbind run_bind bind lift].
  destruct (Py.next_where _ bots) as [next_player|e]; [|left; by eexists].
  destruct (Py.item _ _) as [hand|e]; [|left; by eexists].
  cbv [try_except ask_and_play draw engine emit print mbind run_bind bind lift mret run_ret ret].
  cbn [log draws].
  destruct (play_card next_player _ _ _ _ _ _ _) as [card|e]; [|right; by left].
  destruct (checked_card _ _ _) as [card'|e]; [|right; by left].
  destruct (game_play_card (pid next_player) card' game) as [game'|e] eqn:Hplay;
    [|right; by left].
  right. right. by exists (pid next_player), card', game'.
Qed.

(** The loop over one trick ends: with an engine that puts every accepted
    card into the trick, it makes at most as many passes as bots are
    missing in the trick, whatever the players return or raise. *)
Theorem trick_loop_ends (fuel : nat) round_num game w :
  trick_grows →
  (∀ cards_played, current_trick (game_state game) = Some cards_played →
     (length bots - length cards_played <= fuel)%nat) →
  (play_trick tape bots fuel round_num game w).2 ≠ Unfinished.
Proof.
  intros Hgrows. revert game w.
  induction fuel as [|fuel IH]; intros game w Hfuel.
  - simpl. destruct (current_trick (game_state game)) as [cards_played|] eqn:Htrick; [|done].
    specialize (Hfuel cards_played eq_refl).
    rewrite bool_decide_eq_false_2 by lia. done.
  - simpl. destruct (current_trick (game_state game)) as [cards_played|] eqn:Htrick; [|done].
    specialize (Hfuel cards_played eq_refl).
    case_bool_decide as Hopen; [|done].
    cbv [mbind run_bind bind].
    pose proof (play_turn_outcome round_num game w) as Hturn. simpl in Hturn.
    destruct (play_turn tape bots round_num game w) as [w' outcome]. simpl in Hturn.
    destruct Hturn as [[e ->] | [-> | (player & card & game' & -> & Hplay)]]; [done|done|].
    apply IH. intros cards_played' Htrick'.
    destruct (Hgrows _ _ _ _ _ Hplay Htrick) as [Hnone|Hsome].
    + by rewrite Hnone in Htrick'.
    + rewrite Hsome in Htrick'. injection Htrick' as <-. rewrite length_app. simpl. lia.
Qed.

(** [[(p.name, d[p]) for p in bots]]: the bots in the order of the list,
    each with its entry; a bot without entry makes it a [KeyError]. *)
Theorem named_in_bot_order (d : gmap PlayerId Z) :
  (∀ l, named d bots = Py.Ok l →
     l.*1 = name <$> bots ∧ Forall2 (λ bot x, d !! pid bot = Some x.2) bots l)
  ∧ ((∃ bot, bot ∈ bots ∧ d !! pid bot = None) → named d bots = Py.Raise Py.KeyError).
Proof.
  split.
  - induction bots as [|bot bs IH]; intros l; simpl.
    + intros [= <-]. by split; [|constructor].
    + unfold Py.item. destruct (d !! pid bot) as [v|] eqn:Hv; [|done]. simpl.
      destruct (named d bs) as [l'|]; [|done]. intros [= <-].
      destruct (IH l' eq_refl) as [IH1 IH2].
      split; [by rewrite fmap_cons, IH1 | by constructor].
  - intros (bot & Hin & Hnone). induction bots as [|b bs IH]; [by apply elem_of_nil in Hin|].
    simpl. unfold Py.item. destruct (d !! pid b) as [v|] eqn:Hv; [|done]. simpl.
    apply elem_of_cons in Hin as [->|Hin]; [by rewrite Hnone in Hv|].
    by rewrite (IH Hin).
Qed.
End trick_loop.

Section trick_loop_samples.
Import Main.

(** The specified engine puts every accepted card into the trick. *)
Lemma sample_engine_trick_grows : trick_grows (Engine0 := sample_engine).
Proof.
  intros player card game game' cards_played Hplay Htrick. simpl in *.
  unfold GameEngine.play_card in Hplay. rewrite Htrick in Hplay. simpl in Hplay.
  destruct (bool_decide (card ∈ _)); [|done].
  destruct (bool_decide (length _ = _)).
  - destruct (GameEngine.trick_winner _); [|done]. injection Hplay as <-. by left.
  - injection Hplay as <-. by right.
Qed.

Lemma trick_loop_ends_witness :
  (play_trick (Engine0 := sample_engine) sample_draws create_competition_bots 2 2
     sample_trick start).2 ≠ Unfinished.
Proof.
  apply (trick_loop_ends (Engine0 := sample_engine) sample_draws create_competition_bots
           2 2 sample_trick start).
  - exact sample_engine_trick_grows.
  - intros cards_played [= <-]. simpl. lia.
Defined.

Lemma named_in_bot_order_witness :
  named {[0%nat := 1; 2%nat := 3]} create_competition_bots = Py.Raise Py.KeyError.
Proof.
  apply (named_in_bot_order create_competition_bots {[0%nat := 1; 2%nat := 3]}).
  exists (new_ConservativeBot 1 "ConservativeBot"). split; [|reflexivity].
  apply elem_of_cons. right. apply elem_of_cons. by left.
Defined.
End trick_loop_samples.
